(** * investpy.certificates: recent and historical price retrieval

    A shallow embedding of [investpy/certificates.py]
    ([get_certificate_recent_data] and [get_certificate_historical_data])
    and the properties of its date-range partitioning, catalog lookup,
    row parsing, window merging and error behaviour. *)

From Stdlib Require Import ZArith List String Ascii Bool Lia.
From Stdlib Require Import DecimalString PrimFloat.
From Stdlib Require Uint63.
From Equations Require Import Equations.
Import ListNotations.
Open Scope string_scope.
Open Scope Z_scope.

(** ** Python values, exceptions and outcomes *)

(** The dynamically typed arguments a caller can hand to the two fetch
    functions. *)
Inductive pyval : Type :=
| PNone
| PBool (b : bool)
| PInt (z : Z)
| PStr (s : string).

(** [bool(v)]: Python truthiness, as tested by [if not v]. *)
Definition truthy (v : pyval) : bool :=
  match v with
  | PNone => false
  | PBool b => b
  | PInt z => negb (z =? 0)
  | PStr s => negb (s =? EmptyString)%string
  end.

(** [v == s] for a [str] literal [s]. *)
Definition eq_str (v : pyval) (s : string) : bool :=
  match v with
  | PStr t => (t =? s)%string
  | _ => false
  end.

(** [v in [s1, s2, ...]] for a list of [str] literals. *)
Definition in_strs (v : pyval) (l : list string) : bool :=
  existsb (eq_str v) l.

Inductive exn_class : Type :=
| ValueError
| TypeError
| AttributeError
| RuntimeError
| ConnectionError
| IndexError
| KeyError
| FileNotFoundError
| IOError
| ParserError
| OverflowError.

Record exn : Type := Exn { exn_cls : exn_class; exn_msg : string }.

Inductive outcome (A : Type) : Type :=
| Return (a : A)
| Raise (e : exn).
Arguments Return {A} a.
Arguments Raise {A} e.

Definition obind {A B} (o : outcome A) (k : A -> outcome B) : outcome B :=
  match o with
  | Return a => k a
  | Raise e => Raise e
  end.

(** [str(z)] for an [int]. *)
Definition str_Z (z : Z) : string := NilZero.string_of_int (Z.to_int z).

(** ** Calendar dates ([datetime] at midnight) *)

Record datetime : Type := mkdate { year : Z; month : Z; day : Z }.

Definition is_leap (y : Z) : bool :=
  (y mod 4 =? 0) && (negb (y mod 100 =? 0) || (y mod 400 =? 0)).

Definition days_in_month (y m : Z) : Z :=
  if m =? 2 then (if is_leap y then 29 else 28)
  else if (m =? 4) || (m =? 6) || (m =? 9) || (m =? 11) then 30
  else 31.

(** The check the [datetime] constructor performs on its fields
    ([MINYEAR = 1], [MAXYEAR = 9999]). *)
Definition valid_ymd (y m d : Z) : bool :=
  (1 <=? y) && (y <=? 9999) && (1 <=? m) && (m <=? 12)
  && (1 <=? d) && (d <=? days_in_month y m).

Definition valid_date (d : datetime) : bool :=
  valid_ymd (year d) (month d) (day d).

(** [d.replace(year=y)]: raises [ValueError] when the new date does not
    exist (29 February moved to a common year, or a year above 9999). *)
Definition replace_year (d : datetime) (y : Z) : outcome datetime :=
  if valid_ymd y (month d) (day d) then Return (mkdate y (month d) (day d))
  else if (1 <=? y) && (y <=? 9999)
       then Raise (Exn ValueError "day is out of range for month")
       else Raise (Exn ValueError ("year " ++ str_Z y ++ " is out of range")).

(** Ordering of datetimes: lexicographic on (year, month, day). *)
Definition date_ltb (a b : datetime) : bool :=
  (year a <? year b)
  || ((year a =? year b)
      && ((month a <? month b)
          || ((month a =? month b) && (day a <? day b)))).

Definition date_eqb (a b : datetime) : bool :=
  (year a =? year b) && (month a =? month b) && (day a =? day b).

Definition date_leb (a b : datetime) : bool := date_ltb a b || date_eqb a b.

(** Two-digit, zero-padded field of [strftime] ([%d], [%m]). *)
Definition pad2 (z : Z) : string :=
  if z <? 10 then "0" ++ str_Z z else str_Z z.

(** [d.strftime('%m/%d/%Y')], the provider's date format. *)
Definition strftime_mdY (d : datetime) : string :=
  pad2 (month d) ++ "/" ++ pad2 (day d) ++ "/" ++ str_Z (year d).

(** [d.strftime('%d/%m/%Y')], the format of dates in the JSON output. *)
Definition strftime_dmY (d : datetime) : string :=
  pad2 (day d) ++ "/" ++ pad2 (month d) ++ "/" ++ str_Z (year d).

(** ** The date-range partitioner

    The [while flag is True] loop of [get_certificate_historical_data]:
    every entry of [date_interval['intervals']] is a dict with the keys
    ['start'] and ['end'], both formatted [mm/dd/yyyy]. *)

Record obj : Type := mkobj { start : string; end_ : string }.

Definition window_obj (a b : datetime) : obj :=
  {| start := strftime_mdY a; end_ := strftime_mdY b |}.

(** Case analysis that keeps the equation with the scrutinee. *)
Definition inspect {A : Type} (x : A) : { y : A | x = y } := exist _ x eq_refl.

Equations? intervals_loop (intervals : list obj) (start_date end_date : datetime)
  : outcome (list obj)
  by wf (Z.to_nat (year end_date - year start_date)) lt :=
  intervals_loop intervals start_date end_date
    with inspect (20 <? year end_date - year start_date) := {
    | exist _ true Hdiff
        with inspect (replace_year start_date (year start_date + 20)) := {
        | exist _ (Return next) Hnext :=
            intervals_loop (intervals ++ [window_obj start_date next])%list
                           next end_date;
        | exist _ (Raise e) _ := Raise e };
    | exist _ false _ :=
        Return (intervals ++ [window_obj start_date end_date])%list }.
Proof.
  unfold replace_year in Hnext.
  destruct (valid_ymd _ _ _); [|destruct (_ && _); discriminate].
  injection Hnext as <-. cbn [year].
  apply Z.ltb_lt in Hdiff. lia.
Qed.

Definition date_intervals (start_date end_date : datetime) : outcome (list obj) :=
  intervals_loop [] start_date end_date.

(** ** Argument validation *)

(** [datetime.strptime(s, '%d/%m/%Y')] on ASCII text.  The format compiles
    to the regular expression
    [(3[0-1]|[1-2]\d|0[1-9]|[1-9]| [1-9])/(1[0-2]|0[1-9]|[1-9])/(\d\d\d\d)],
    which has to consume the whole string; the fields then have to form an
    existing date. *)

Definition digit (c : ascii) : option Z :=
  let n := Z.of_nat (nat_of_ascii c) in
  if (48 <=? n) && (n <=? 57) then Some (n - 48) else None.

Fixpoint split_slash (s : string) : list string :=
  match s with
  | EmptyString => [EmptyString]
  | String c r =>
      if (c =? "/")%char then EmptyString :: split_slash r
      else match split_slash r with
           | [] => [String c EmptyString]
           | t :: ts => String c t :: ts
           end
  end.

Definition match_day (t : string) : option Z :=
  match t with
  | String a EmptyString =>
      match digit a with
      | Some x => if 1 <=? x then Some x else None
      | None => None
      end
  | String a (String b EmptyString) =>
      match digit b with
      | Some y =>
          match digit a with
          | Some x =>
              if (x =? 3) && (y <=? 1) then Some (30 + y)
              else if (1 <=? x) && (x <=? 2) then Some (10 * x + y)
              else if (x =? 0) && (1 <=? y) then Some y
              else None
          | None => if (a =? " ")%char && (1 <=? y) then Some y else None
          end
      | None => None
      end
  | _ => None
  end.

Definition match_month (t : string) : option Z :=
  match t with
  | String a EmptyString =>
      match digit a with
      | Some x => if 1 <=? x then Some x else None
      | None => None
      end
  | String a (String b EmptyString) =>
      match digit a, digit b with
      | Some x, Some y =>
          if (x =? 1) && (y <=? 2) then Some (10 + y)
          else if (x =? 0) && (1 <=? y) then Some y
          else None
      | _, _ => None
      end
  | _ => None
  end.

Definition match_year (t : string) : option Z :=
  match t with
  | String a (String b (String c (String d EmptyString))) =>
      match digit a, digit b, digit c, digit d with
      | Some w, Some x, Some y, Some z =>
          Some (1000 * w + 100 * x + 10 * y + z)
      | _, _, _, _ => None
      end
  | _ => None
  end.

Definition strptime_dmY (s : string) : option datetime :=
  match split_slash s with
  | [d; m; y] =>
      match match_day d, match_month m, match_year y with
      | Some d', Some m', Some y' =>
          if valid_ymd y' m' d' then Some (mkdate y' m' d') else None
      | _, _, _ => None
      end
  | _ => None
  end.

(** [datetime.strptime(v, '%d/%m/%Y')] on an arbitrary argument: a value
    that is not a [str] raises [TypeError], unparsable text [ValueError]. *)
Definition strptime (v : pyval) : outcome datetime :=
  match v with
  | PStr s =>
      match strptime_dmY s with
      | Some d => Return d
      | None => Raise (Exn ValueError "time data does not match format '%d/%m/%Y'")
      end
  | _ => Raise (Exn TypeError "strptime() argument 1 must be str")
  end.

(** [try: datetime.strptime(v, '%d/%m/%Y') except ValueError: raise
    ValueError(msg)]. *)
Definition try_strptime (v : pyval) (msg : string) : outcome datetime :=
  match strptime v with
  | Return d => Return d
  | Raise e =>
      match exn_cls e with
      | ValueError => Raise (Exn ValueError msg)
      | _ => Raise e
      end
  end.

Definition str_of (v : pyval) : string :=
  match v with
  | PStr s => s
  | _ => EmptyString
  end.

Definition ERR0100 := "ERR#0100: certificate param is mandatory and should be a str.".
Definition ERR0039 := "ERR#0039: country can not be None, it should be a str.".
Definition ERR0025 := "ERR#0025: specified country value not valid.".
Definition ERR0002 := "ERR#0002: as_json argument can just be True or False, bool type.".
Definition ERR0003 := "ERR#0003: order argument can just be ascending (asc) or descending (desc), str type.".
Definition ERR0073 := "ERR#0073: interval value should be a str type and it can just be either 'Daily', 'Weekly' or 'Monthly'.".
Definition ERR0011 := "ERR#0011: incorrect from_date date format, it should be 'dd/mm/yyyy'.".
Definition ERR0012 := "ERR#0012: incorrect to_date format, it should be 'dd/mm/yyyy'.".
Definition ERR0032 := "ERR#0032: to_date should be greater than from_date, both formatted as 'dd/mm/yyyy'.".
Definition ERR0096 := "ERR#0096: certificates file not found or errored.".
Definition ERR0097 := "ERR#0097: certificates not found or unable to retrieve.".
Definition ERR0102 := "ERR#0102: certificate information unavailable or not found.".
Definition ERR0004 := "ERR#0004: data retrieval error while scraping.".

Definition ERR0015 (status_code : Z) : string :=
  "ERR#0015: error " ++ str_Z status_code ++ ", try again later.".

(** The validated arguments, with the types the checks have established. *)
Record arguments : Type := {
  arg_certificate : string;
  arg_country : string;
  arg_as_json : bool;
  arg_order : string;
  arg_interval : string
}.

(** The nine checks that open both fetch functions, in source order. *)
Definition check_arguments (certificate country as_json order interval : pyval)
  : outcome arguments :=
  if negb (truthy certificate) then Raise (Exn ValueError ERR0100) else
  match certificate with
  | PStr certificate' =>
      match country with
      | PNone => Raise (Exn ValueError ERR0039)
      | PStr country' =>
          match as_json with
          | PBool as_json' =>
              if negb (in_strs order ["ascending"; "asc"; "descending"; "desc"])
              then Raise (Exn ValueError ERR0003) else
              if negb (truthy interval) then Raise (Exn ValueError ERR0073) else
              match interval with
              | PStr interval' =>
                  if negb (in_strs interval ["Daily"; "Weekly"; "Monthly"])
                  then Raise (Exn ValueError ERR0073)
                  else Return {| arg_certificate := certificate';
                                 arg_country := country';
                                 arg_as_json := as_json';
                                 arg_order := str_of order;
                                 arg_interval := interval' |}
              | _ => Raise (Exn ValueError ERR0073)
              end
          | _ => Raise (Exn ValueError ERR0002)
          end
      | _ => Raise (Exn ValueError ERR0025)
      end
  | _ => Raise (Exn ValueError ERR0100)
  end.

(** The date checks of [get_certificate_historical_data]: both strings are
    parsed (and parsed again for [start_date] and [end_date]), then
    compared. *)
Definition check_dates (from_date to_date : pyval)
  : outcome (datetime * datetime) :=
  obind (try_strptime from_date ERR0011) (fun _ =>
  obind (try_strptime to_date ERR0012) (fun _ =>
  obind (strptime from_date) (fun start_date =>
  obind (strptime to_date) (fun end_date =>
  if negb (date_ltb start_date end_date)
  then Raise (Exn ValueError ERR0032)
  else Return (start_date, end_date))))).

Definition is_ascending (order : string) : bool :=
  existsb (String.eqb order) ["ascending"; "asc"].

(** ** The data model *)

(** One row of [resources/certificates/certificates.csv]. *)
Record instrument : Type := {
  country_ : string;
  name_ : string;
  full_name : string;
  symbol_ : string;
  issuer : string;
  isin : string;
  asset_class : string;
  underlying : string;
  id_ : Z;
  tag : string
}.

(** Modelled from the spec: the class [Data] of [investpy/utils/data.py],
    the PricePoint of the data model, built by
    [Data(date, open, high, low, close, None, None)]. *)
Record Data : Type := mkData {
  date : datetime;
  open : float;
  high : float;
  low : float;
  close : float
}.

(** A row of the tabular output: the index [Date] and the columns [Open],
    [High], [Low], [Close]. *)
Record frame_row : Type := {
  col_Date : datetime;
  col_Open : float;
  col_High : float;
  col_Low : float;
  col_Close : float
}.

(** A record of the structured output. *)
Record json_row : Type := {
  j_date : string;
  j_open : float;
  j_high : float;
  j_low : float;
  j_close : float
}.

(** Modelled from the spec: [Data.certificate_to_dict], the row of the
    tabular mode. *)
Definition certificate_to_dict (v : Data) : frame_row :=
  {| col_Date := date v; col_Open := open v; col_High := high v;
     col_Low := low v; col_Close := close v |}.

(** Modelled from the spec: [Data.certificate_as_json], the record of the
    structured mode, its date rendered [dd/mm/yyyy]. *)
Definition certificate_as_json (v : Data) : json_row :=
  {| j_date := strftime_dmY (date v); j_open := open v; j_high := high v;
     j_low := low v; j_close := close v |}.

(** What a fetch hands back: a [pandas.DataFrame] indexed by [Date], or the
    dict [{'name': name, key: [...]}] that [json.dumps] serialises. *)
Inductive output : Type :=
| DataFrame (rows : list frame_row)
| Json (name : string) (key : string) (records : list json_row).

(** [pd.DataFrame.from_records(records)] followed by [set_index('Date')]:
    a frame without records has no [Date] column. *)
Definition from_records (records : list frame_row) : outcome output :=
  match records with
  | [] => Raise (Exn KeyError "None of ['Date'] are in the columns")
  | _ => Return (DataFrame records)
  end.

Fixpoint concat_rows (objs : list output) : outcome (list frame_row) :=
  match objs with
  | [] => Return []
  | DataFrame rows :: rest =>
      obind (concat_rows rest) (fun more => Return (rows ++ more)%list)
  | Json _ _ _ :: _ =>
      Raise (Exn TypeError "cannot concatenate object of type 'dict'")
  end.

(** [pd.concat(objs)]. *)
Definition pd_concat (objs : list output) : outcome output :=
  match objs with
  | [] => Raise (Exn ValueError "No objects to concatenate")
  | _ => obind (concat_rows objs) (fun rows => Return (DataFrame rows))
  end.

(** ** The provider *)

(** A [td] cell of the results table: its text and its [data-real-value]
    attribute ([None] when the attribute is absent). *)
Record td : Type := {
  text_content : string;
  data_real_value : option string
}.

(** A [tr] row, as the list [elements_.xpath(".//td")]. *)
Definition tr : Type := list td.

(** An HTTP response.  [curr_table] is what
    [fromstring(text).xpath(".//table[@id='curr_table']/tbody/tr")] yields
    for the body; [fromstring] raises on a document it cannot parse. *)
Record response : Type := {
  status_code : Z;
  text : string;
  curr_table : outcome (list tr)
}.

(** The arguments of [requests.post(url, headers=head, data=params)]. *)
Record request : Type := {
  url : string;
  head : list (string * string);
  params : list (string * pyval)
}.

(** The collaborators outside this file: text normalisation, number
    parsing, the local time zone, the random sources, the bundled catalog
    and the provider. *)
Record Env : Type := {
  unidecode : string -> string;
  lower : string -> string;
  strip : string -> string;
  py_int : string -> option Z;
  py_float : string -> option float;
  fromtimestamp : Z -> outcome datetime;
  randint : nat -> Z;
  get_random : nat -> string;
  certificates_csv : option (list instrument);
  get_certificate_countries : outcome (list string);
  provider : nat -> request -> response
}.

(** ** Computations that talk to the provider

    The state is the log of the POST requests issued so far. *)
Definition M (A : Type) : Type := list request -> outcome A * list request.

Definition ret {A} (a : A) : M A := fun log => (Return a, log).

Definition raise {A} (e : exn) : M A := fun log => (Raise e, log).

Definition bind {A B} (m : M A) (k : A -> M B) : M B :=
  fun log =>
    match m log with
    | (Return a, log') => k a log'
    | (Raise e, log') => (Raise e, log')
    end.

Definition lift {A} (o : outcome A) : M A := fun log => (o, log).

Notation "x <- m ;; k" := (bind m (fun x => k))
  (at level 61, m at next level, right associativity).
Notation "' p <- m ;; k" := (bind m (fun x => let 'p := x in k))
  (at level 61, p pattern, m at next level, right associativity).

Definition run {A} (m : M A) : outcome A * list request := m [].

(** [s.replace(',', '')]. *)
Fixpoint remove_commas (s : string) : string :=
  match s with
  | EmptyString => EmptyString
  | String c r =>
      if (c =? ",")%char then remove_commas r else String c (remove_commas r)
  end.

Definition NO_RESULTS : string := "No results found".

Definition URL : string :=
  "https://www.investing.com/instruments/HistoricalDataAjax".

(** The state of the loop over the windows of a historical fetch. *)
Record loop_state : Type := {
  interval_counter : nat;
  data_flag : bool;
  final : list output
}.

Section Fetch.

Variable E : Env.

(** [requests.post]: the request is logged and the provider answers it.
    The random token and the User-Agent are the draws of this request. *)
Definition requests_post (mk : nat -> request) : M response :=
  fun log =>
    let req := mk (List.length log) in
    (Return (provider E (List.length log) req), (log ++ [req])%list).

Definition headers (k : nat) : list (string * string) :=
  [("User-Agent", get_random E k);
   ("X-Requested-With", "XMLHttpRequest");
   ("Accept", "text/html");
   ("Accept-Encoding", "gzip, deflate, br");
   ("Connection", "keep-alive")].

Definition recent_request (id : Z) (header interval : string) (k : nat)
  : request :=
  {| url := URL;
     head := headers k;
     params := [("curr_id", PInt id);
                ("smlID", PStr (str_Z (randint E k)));
                ("header", PStr header);
                ("interval_sec", PStr interval);
                ("sort_col", PStr "date");
                ("sort_ord", PStr "DESC");
                ("action", PStr "historical_data")] |}.

Definition historical_request (id : Z) (header interval : string) (w : obj)
  (k : nat) : request :=
  {| url := URL;
     head := headers k;
     params := [("curr_id", PInt id);
                ("smlID", PStr (str_Z (randint E k)));
                ("header", PStr header);
                ("st_date", PStr (start w));
                ("end_date", PStr (end_ w));
                ("interval_sec", PStr interval);
                ("sort_col", PStr "date");
                ("sort_ord", PStr "DESC");
                ("action", PStr "historical_data")] |}.

(** *** Catalog lookup *)

(** [mask.idxmax()] on a boolean column: the first row where the mask
    holds and, when it holds nowhere, the first row. *)
Definition idxmax (mask : instrument -> bool) (rows : list instrument)
  : option instrument :=
  match find mask rows with
  | Some r => Some r
  | None => hd_error rows
  end.

(** The catalog part of both fetch functions: symbol, id and name of the
    selected row. *)
Definition resolve (certificate country : string)
  : outcome (string * Z * string) :=
  match certificates_csv E with
  | None => Raise (Exn FileNotFoundError ERR0096)
  | Some certificates =>
      obind (get_certificate_countries E) (fun countries =>
      if negb (existsb (String.eqb (unidecode E (lower E country))) countries)
      then Raise (Exn RuntimeError
                    ("ERR#0034: country " ++ lower E country
                     ++ " not found, check if it is correct."))
      else
        let certificates :=
          filter (fun r => (country_ r =? unidecode E (lower E country))%string)
                 certificates in
        let certificate := lower E (strip E certificate) in
        if negb (existsb (String.eqb (unidecode E certificate))
                   (map (fun value => unidecode E (lower E value))
                        (map name_ certificates)))
        then Raise (Exn RuntimeError
                      ("ERR#0101: certificate " ++ certificate
                       ++ " not found, check if it is correct."))
        else
          match idxmax (fun r => (lower E (name_ r) =? certificate)%string)
                       certificates with
          | Some row => Return (symbol_ row, id_ row, name_ row)
          | None =>
              Raise (Exn ValueError "attempt to get argmax of an empty sequence")
          end)
  end.

(** *** Row parsing *)

(** [float(info[i].replace(',', ''))]. *)
Definition price (info : list (option string)) (i : nat) : outcome float :=
  match nth_error info i with
  | None => Raise (Exn IndexError "list index out of range")
  | Some None =>
      Raise (Exn AttributeError "'NoneType' object has no attribute 'replace'")
  | Some (Some s) =>
      match py_float E (remove_commas s) with
      | Some x => Return x
      | None => Raise (Exn ValueError "could not convert string to float")
      end
  end.

(** [datetime.strptime(str(datetime.fromtimestamp(int(info[0])).date()),
    '%Y-%m-%d')]: the calendar date of the timestamp, at midnight. *)
Definition timestamp_date (info : list (option string)) : outcome datetime :=
  match nth_error info 0 with
  | None => Raise (Exn IndexError "list index out of range")
  | Some None =>
      Raise (Exn TypeError "int() argument must be a string or a number")
  | Some (Some s) =>
      match py_int E s with
      | Some ts => fromtimestamp E ts
      | None => Raise (Exn ValueError "invalid literal for int() with base 10")
      end
  end.

(** The record built from the [data-real-value] attributes of a row: the
    cells hold date, close, open, high, low, in this order. *)
Definition parse_info (info : list (option string)) : outcome Data :=
  obind (timestamp_date info) (fun certificate_date =>
  obind (price info 1) (fun certificate_close =>
  obind (price info 2) (fun certificate_open =>
  obind (price info 3) (fun certificate_high =>
  obind (price info 4) (fun certificate_low =>
  Return (mkData certificate_date certificate_open certificate_high
                 certificate_low certificate_close)))))).

(** The row loop of [get_certificate_recent_data]. *)
Fixpoint recent_rows (path_ : list tr) (result : list Data)
  : outcome (list Data) :=
  match path_ with
  | [] => Return result
  | elements_ :: rest =>
      match elements_ with
      | [] => Raise (Exn IndexError "list index out of range")
      | td0 :: _ =>
          if (text_content td0 =? NO_RESULTS)%string
          then Raise (Exn IndexError ERR0102)
          else
            let info := map data_real_value elements_ in
            obind (parse_info info) (fun v =>
            recent_rows rest (result ++ [v])%list)
      end
  end.

(** The row loop of [get_certificate_historical_data]; [data_flag] is the
    function-level flag, set by every row. *)
Fixpoint historical_rows (interval_counter interval_limit : nat)
  (path_ : list tr) (data_flag : bool) (result : list Data)
  : outcome (bool * list Data) :=
  match path_ with
  | [] => Return (data_flag, result)
  | elements_ :: rest =>
      match elements_ with
      | [] => Raise (Exn IndexError "list index out of range")
      | td0 :: _ =>
          obind (if (text_content td0 =? NO_RESULTS)%string
                 then if (interval_counter <? interval_limit)%nat
                      then Return false
                      else Raise (Exn IndexError ERR0102)
                 else Return true) (fun data_flag =>
          let info := map data_real_value elements_ in
          if data_flag
          then obind (parse_info info) (fun v =>
               historical_rows interval_counter interval_limit rest data_flag
                               (result ++ [v])%list)
          else historical_rows interval_counter interval_limit rest data_flag
                               result)
      end
  end.

(** [result[::-1]] for the ascending orders, [result] otherwise. *)
Definition ordered (order : string) (result : list Data) : list Data :=
  if is_ascending order then rev result else result.

(** *** get_certificate_recent_data *)

Definition get_certificate_recent_data
  (certificate country as_json order interval : pyval) : M output :=
  a <- lift (check_arguments certificate country as_json order interval) ;;
  ' (symbol, id, name) <- lift (resolve (arg_certificate a) (arg_country a)) ;;
  let header := symbol ++ " Historical Data" in
  req <- requests_post (recent_request id header (arg_interval a)) ;;
  if negb (status_code req =? 200)
  then raise (Exn ConnectionError (ERR0015 (status_code req)))
  else
    path_ <- lift (curr_table req) ;;
    match path_ with
    | [] => raise (Exn RuntimeError ERR0004)
    | _ =>
        result <- lift (recent_rows path_ []) ;;
        let result := ordered (arg_order a) result in
        if arg_as_json a
        then ret (Json name "recent" (map certificate_as_json result))
        else lift (from_records (map certificate_to_dict result))
    end.

(** *** get_certificate_historical_data *)

(** The body of the loop over [date_interval['intervals']]. *)
Definition window_body (a : arguments) (id : Z) (header name : string)
  (interval_limit : nat) (w : obj) (st : loop_state) : M loop_state :=
  let interval_counter := S (interval_counter st) in
  req <- requests_post (historical_request id header (arg_interval a) w) ;;
  if negb (status_code req =? 200)
  then raise (Exn ConnectionError (ERR0015 (status_code req)))
  else if (text req =? EmptyString)%string
  then ret {| interval_counter := interval_counter;
              data_flag := data_flag st;
              final := final st |}
  else
    path_ <- lift (curr_table req) ;;
    match path_ with
    | [] => raise (Exn RuntimeError ERR0004)
    | _ =>
        ' (data_flag, result) <-
          lift (historical_rows interval_counter interval_limit path_
                                (data_flag st) []) ;;
        if data_flag
        then
          let result := ordered (arg_order a) result in
          if arg_as_json a
          then
            let json_ := Json name "historical"
                              (map certificate_as_json result) in
            ret {| interval_counter := interval_counter;
                   data_flag := data_flag;
                   final := (final st ++ [json_])%list |}
          else
            df <- lift (from_records (map certificate_to_dict result)) ;;
            ret {| interval_counter := interval_counter;
                   data_flag := data_flag;
                   final := (final st ++ [df])%list |}
        else ret {| interval_counter := interval_counter;
                    data_flag := data_flag;
                    final := final st |}
    end.

Fixpoint windows_loop (a : arguments) (id : Z) (header name : string)
  (interval_limit : nat) (intervals : list obj) (st : loop_state)
  : M loop_state :=
  match intervals with
  | [] => ret st
  | w :: rest =>
      st' <- window_body a id header name interval_limit w st ;;
      windows_loop a id header name interval_limit rest st'
  end.

(** The two [return] statements that close the function. *)
Definition emit (as_json : bool) (final : list output) : outcome output :=
  if as_json
  then match final with
       | [] => Raise (Exn IndexError "list index out of range")
       | json_ :: _ => Return json_
       end
  else pd_concat final.

Definition get_certificate_historical_data
  (certificate country from_date to_date as_json order interval : pyval)
  : M output :=
  a <- lift (check_arguments certificate country as_json order interval) ;;
  ' (start_date, end_date) <- lift (check_dates from_date to_date) ;;
  intervals <- lift (date_intervals start_date end_date) ;;
  let interval_limit := List.length intervals in
  ' (symbol, id, name) <- lift (resolve (arg_certificate a) (arg_country a)) ;;
  let header := symbol ++ " Historical Data" in
  st <- windows_loop a id header name interval_limit intervals
          {| interval_counter := O; data_flag := false; final := [] |} ;;
  lift (emit (arg_as_json a) (final st)).

End Fetch.

(** ** A concrete environment

    Executable stand-ins for the collaborators, used to run the two
    functions on concrete catalogs and provider responses: text
    normalisation on ASCII and the accented Latin-1 letters (UTF-8
    encoded), decimal number parsing, UTC as the local time zone, and a
    provider that answers the k-th request with the k-th response of a
    list. *)
Module Sample.

Definition byte (c : ascii) : Z := Z.of_nat (nat_of_ascii c).
Definition chr (z : Z) : ascii := ascii_of_nat (Z.to_nat z).

(** [str.lower] on ASCII and on U+00C0..U+00DE. *)
Fixpoint lower (s : string) : string :=
  match s with
  | EmptyString => EmptyString
  | String c r =>
      if (65 <=? byte c) && (byte c <=? 90)
      then String (chr (byte c + 32)) (lower r)
      else if byte c =? 195
      then match r with
           | String b r' =>
               if (128 <=? byte b) && (byte b <=? 158) && negb (byte b =? 151)
               then String c (String (chr (byte b + 32)) (lower r'))
               else String c (String b (lower r'))
           | EmptyString => String c EmptyString
           end
      else String c (lower r)
  end.

(** The ASCII letter that [unidecode] gives for U+00C0 + [b - 128]. *)
Definition latin_base (b : Z) : option string :=
  if (128 <=? b) && (b <=? 133) then Some "A"
  else if b =? 135 then Some "C"
  else if (136 <=? b) && (b <=? 139) then Some "E"
  else if (140 <=? b) && (b <=? 143) then Some "I"
  else if b =? 145 then Some "N"
  else if (146 <=? b) && (b <=? 150) then Some "O"
  else if (153 <=? b) && (b <=? 156) then Some "U"
  else if (160 <=? b) && (b <=? 165) then Some "a"
  else if b =? 167 then Some "c"
  else if (168 <=? b) && (b <=? 171) then Some "e"
  else if (172 <=? b) && (b <=? 175) then Some "i"
  else if b =? 177 then Some "n"
  else if (178 <=? b) && (b <=? 182) then Some "o"
  else if (185 <=? b) && (b <=? 188) then Some "u"
  else None.

(** [unidecode.unidecode] on ASCII and on the accented Latin-1 letters. *)
Fixpoint unidecode (s : string) : string :=
  match s with
  | EmptyString => EmptyString
  | String c r =>
      if byte c =? 195
      then match r with
           | String b r' =>
               match latin_base (byte b) with
               | Some l => l ++ unidecode r'
               | None => String c (String b (unidecode r'))
               end
           | EmptyString => String c EmptyString
           end
      else String c (unidecode r)
  end.

Definition is_space (c : ascii) : bool :=
  (byte c =? 32) || ((9 <=? byte c) && (byte c <=? 13)).

Fixpoint lstrip (s : string) : string :=
  match s with
  | String c r => if is_space c then lstrip r else s
  | EmptyString => EmptyString
  end.

Fixpoint rstrip (s : string) : string :=
  match s with
  | EmptyString => EmptyString
  | String c r =>
      match rstrip r with
      | EmptyString => if is_space c then EmptyString else String c EmptyString
      | r' => String c r'
      end
  end.

(** [str.strip] for ASCII whitespace. *)
Definition strip (s : string) : string := rstrip (lstrip s).

Fixpoint digits (s : string) (acc : Z) : option Z :=
  match s with
  | EmptyString => Some acc
  | String c r =>
      match digit c with
      | Some x => digits r (10 * acc + x)
      | None => None
      end
  end.

(** [int(s)] for an optionally signed run of decimal digits. *)
Definition py_int (s : string) : option Z :=
  match s with
  | EmptyString => None
  | String "-" (String c r) => option_map Z.opp (digits (String c r) 0)
  | _ => digits s 0
  end.

Definition float_of_Z (z : Z) : float :=
  if z <? 0 then PrimFloat.opp (PrimFloat.of_uint63 (Uint63.of_Z (- z)))
  else PrimFloat.of_uint63 (Uint63.of_Z z).

Fixpoint split_dot (s : string) : string * option string :=
  match s with
  | EmptyString => (EmptyString, None)
  | String c r =>
      if (c =? ".")%char then (EmptyString, Some r)
      else let (a, b) := split_dot r in (String c a, b)
  end.

(** [float(s)] for a decimal numeral [ddd] or [ddd.ddd] with an optional
    sign: the quotient of two exactly represented integers. *)
Definition py_float (s : string) : option float :=
  let (neg, body) :=
    match s with
    | String "-" r => (true, r)
    | _ => (false, s)
    end in
  let (ip, fp) := split_dot body in
  let fp := match fp with Some f => f | None => EmptyString end in
  match ip ++ fp with
  | EmptyString => None
  | ds =>
      match digits ds 0 with
      | Some n =>
          let x := PrimFloat.div (float_of_Z n)
                     (float_of_Z (10 ^ Z.of_nat (String.length fp))) in
          Some (if neg then PrimFloat.opp x else x)
      | None => None
      end
  end.

(** The civil date of a day count since 1970-01-01. *)
Definition civil_from_days (days : Z) : datetime :=
  let z := days + 719468 in
  let era := z / 146097 in
  let doe := z - era * 146097 in
  let yoe := (doe - doe / 1460 + doe / 36524 - doe / 146096) / 365 in
  let doy := doe - (365 * yoe + yoe / 4 - yoe / 100) in
  let mp := (5 * doy + 2) / 153 in
  let d := doy - (153 * mp + 2) / 5 + 1 in
  let m := if mp <? 10 then mp + 3 else mp - 9 in
  let y := yoe + era * 400 + (if m <=? 2 then 1 else 0) in
  mkdate y m d.

(** [datetime.fromtimestamp(ts).date()] with UTC as the local zone. *)
Definition fromtimestamp (ts : Z) : outcome datetime :=
  let d := civil_from_days (ts / 86400) in
  if valid_date d then Return d
  else Raise (Exn ValueError "year is out of range").

Definition no_response : response :=
  {| status_code := 404; text := EmptyString; curr_table := Return [] |}.

Definition env (catalog : list instrument) (countries : list string)
  (responses : list response) : Env :=
  Build_Env unidecode lower strip py_int py_float fromtimestamp
    (fun k => 1000000 + Z.of_nat k)
    (fun _ => "Mozilla/5.0")
    (Some catalog)
    (Return countries)
    (fun k _ => nth k responses no_response).

(** A catalog row with the fields the fetch functions read. *)
Definition row (country name symbol : string) (id : Z) : instrument :=
  {| country_ := country; name_ := name; full_name := name;
     symbol_ := symbol; issuer := EmptyString; isin := symbol; asset_class := EmptyString;
     underlying := EmptyString; id_ := id; tag := EmptyString |}.

(** A data row of the results table: the five cells with their raw
    values. *)
Definition data_tr (ts close open high low : string) : tr :=
  map (fun v => {| text_content := v; data_real_value := Some v |})
      [ts; close; open; high; low].

(** The row the provider sends when it has no data. *)
Definition no_results_tr : tr :=
  [{| text_content := NO_RESULTS; data_real_value := None |}].

Definition ok (body : list tr) : response :=
  {| status_code := 200; text := "<table id='curr_table'>"; curr_table := Return body |}.

End Sample.

(** ** Vocabulary of the properties *)

(** [b] lies at most [k] calendar years after [a]: [b <= a + k years]. *)
Definition within_years (k : Z) (a b : datetime) : bool :=
  (year b - year a <? k)
  || ((year b - year a =? k)
      && ((month b <? month a)
          || ((month b =? month a) && (day b <=? day a)))).

(** The cut points [s], [s + 20 years], ..., [s + 20 n years]. *)
Fixpoint cuts (n : nat) (s : datetime) : list datetime :=
  match n with
  | O => [s]
  | S k => s :: cuts k (mkdate (year s + 20) (month s) (day s))
  end.

(** The windows between consecutive cut points. *)
Fixpoint chain (cs : list datetime) : list obj :=
  match cs with
  | a :: (b :: _) as rest => window_obj a b :: chain rest
  | _ => []
  end.

(** [R] relates every cut point to the next one. *)
Fixpoint consecutive (R : datetime -> datetime -> Prop) (cs : list datetime)
  : Prop :=
  match cs with
  | a :: (b :: _) as rest => R a b /\ consecutive R rest
  | _ => True
  end.

(** [d] lies in the closed window from [a] to [b]. *)
Definition in_window (d a b : datetime) : Prop :=
  date_leb a d = true /\ date_leb d b = true.

(** Some window between consecutive cut points holds [d]. *)
Fixpoint covered (d : datetime) (cs : list datetime) : Prop :=
  match cs with
  | a :: (b :: _) as rest => in_window d a b \/ covered d rest
  | _ => False
  end.

Definition is_feb29 (d : datetime) : bool := (month d =? 2) && (day d =? 29).

(** A call of one of the two fetch operations, with the arguments as the
    caller passes them. *)
Inductive call : Type :=
| RecentCall (certificate country as_json order interval : pyval)
| HistoricalCall
    (certificate country from_date to_date as_json order interval : pyval).

Definition fetch (E : Env) (c : call) : M output :=
  match c with
  | RecentCall certificate country as_json order interval =>
      get_certificate_recent_data E certificate country as_json order interval
  | HistoricalCall certificate country from_date to_date as_json order
                   interval =>
      get_certificate_historical_data E certificate country from_date to_date
                                      as_json order interval
  end.

(** Valid arguments, as the documentation of the two functions has them:
    a non-empty [str] certificate, a [str] country, a [bool] [as_json], an
    order and an interval among the accepted words. *)
Definition valid_arguments (certificate country as_json order interval : pyval)
  : bool :=
  match certificate with PStr s => negb (s =? EmptyString)%string | _ => false end
  && match country with PStr _ => true | _ => false end
  && match as_json with PBool _ => true | _ => false end
  && in_strs order ["ascending"; "asc"; "descending"; "desc"]
  && in_strs interval ["Daily"; "Weekly"; "Monthly"].

(** Valid dates: two [dd/mm/yyyy] strings of existing dates, the first
    strictly before the second. *)
Definition valid_dates (from_date to_date : pyval) : bool :=
  match from_date, to_date with
  | PStr f, PStr t =>
      match strptime_dmY f, strptime_dmY t with
      | Some a, Some b => date_ltb a b
      | _, _ => false
      end
  | _, _ => false
  end.

Definition valid_call (c : call) : bool :=
  match c with
  | RecentCall certificate country as_json order interval =>
      valid_arguments certificate country as_json order interval
  | HistoricalCall certificate country from_date to_date as_json order
                   interval =>
      valid_arguments certificate country as_json order interval
      && valid_dates from_date to_date
  end.

(** Every request of the log was answered with status 200. *)
Definition status_ok (E : Env) (log : list request) : Prop :=
  forall k req,
    nth_error log k = Some req -> status_code (provider E k req) = 200.

(** What a fetch raises on a response with the given status. *)
Definition transport_error (status : Z) : exn :=
  Exn ConnectionError (ERR0015 status).

(** The part of [get_certificate_historical_data] that precedes the loop
    over the windows: validation, partitioning and catalog lookup. *)
Definition historical_prelude (E : Env)
  (certificate country from_date to_date as_json order interval : pyval)
  : outcome (arguments * list obj * (string * Z * string)) :=
  obind (check_arguments certificate country as_json order interval) (fun a =>
  obind (check_dates from_date to_date) (fun dates =>
  obind (date_intervals (fst dates) (snd dates)) (fun intervals =>
  obind (resolve E (arg_certificate a) (arg_country a)) (fun r =>
  Return (a, intervals, r))))).

(** The state in which the loop over the windows starts. *)
Definition init_state : loop_state :=
  {| interval_counter := O; data_flag := false; final := [] |}.

(** The loop of a historical fetch over its windows, after the prelude. *)
Definition historical_windows (E : Env) (a : arguments) (intervals : list obj)
  (r : string * Z * string) : M loop_state :=
  let '(symbol, id, name) := r in
  windows_loop E a id (symbol ++ " Historical Data") name
               (List.length intervals) intervals init_state.

(** ** Sample calls

    A one-row catalog, two provider tables and the calls that the
    examples below run. *)
Module Scenario.

Import Sample.

Definition catalog : list instrument :=
  [row "france" "Example Cert" "EX1" 123].

(** 2018-06-01 and 2018-01-02, newest first. *)
Definition table_2018 : list tr :=
  [data_tr "1527811200" "10.5" "10" "11" "9";
   data_tr "1514851200" "5.5" "5" "6" "4"].

(** 2005-03-01 and 2005-02-01, newest first. *)
Definition table_2005 : list tr :=
  [data_tr "1109635200" "3.5" "3" "4" "2";
   data_tr "1107216000" "1,002.5" "1,001" "1,003" "1,000"].

Definition failed (status : Z) : response :=
  {| status_code := status; text := "error"; curr_table := Return [] |}.

Definition historical (from_date to_date : string) (as_json : bool)
  (order : string) : call :=
  HistoricalCall (PStr "Example Cert") (PStr "france") (PStr from_date)
                 (PStr to_date) (PBool as_json) (PStr order) (PStr "Daily").

Definition recent (as_json : bool) (order : string) : call :=
  RecentCall (PStr "Example Cert") (PStr "france") (PBool as_json)
             (PStr order) (PStr "Daily").

(** The dates of a returned series, [dd/mm/yyyy], in output order. *)
Definition dates_of (r : outcome output) : list string :=
  match r with
  | Return (DataFrame rows) => map (fun x => strftime_dmY (col_Date x)) rows
  | Return (Json _ _ records) => map j_date records
  | Raise _ => []
  end.

(** The rows of a returned table. *)
Definition rows_of (r : outcome output) : list frame_row :=
  match r with
  | Return (DataFrame rows) => rows
  | _ => []
  end.

End Scenario.

(** A catalog in which the accented name is not the first row of its
    country. *)
Definition accented_catalog : list instrument :=
  [Sample.row "france" "Alpha" "A1" 1;
   Sample.row "france" "Société X" "SX" 2].

(** ** Vocabulary of the further properties *)

(** The requests of a historical fetch for its windows, the first of them
    being request number [k] of the call. *)
Fixpoint window_requests (E : Env) (a : arguments) (id : Z) (header : string)
  (intervals : list obj) (k : nat) : list request :=
  match intervals with
  | [] => []
  | w :: rest =>
      historical_request E id header (arg_interval a) w k
      :: window_requests E a id header rest (S k)
  end.






Definition is_recent (c : call) : bool :=
  match c with
  | RecentCall _ _ _ _ _ => true
  | HistoricalCall _ _ _ _ _ _ _ => false
  end.

(** The number of records of a series. *)
Definition series_length (o : output) : nat :=
  match o with
  | DataFrame rows => List.length rows
  | Json _ _ records => List.length records
  end.

(** The structured record of a table row: the same five values, the date
    rendered [dd/mm/yyyy]. *)
Definition json_of_row (r : frame_row) : json_row :=
  {| j_date := strftime_dmY (col_Date r); j_open := col_Open r;
     j_high := col_High r; j_low := col_Low r; j_close := col_Close r |}.

(** A table as the structured series of the given name and key. *)
Definition structured (name key : string) (o : output) : output :=
  match o with
  | DataFrame rows => Json name key (map json_of_row rows)
  | Json _ _ _ => o
  end.





Definition call_certificate (c : call) : pyval :=
  match c with
  | RecentCall certificate _ _ _ _ => certificate
  | HistoricalCall certificate _ _ _ _ _ _ => certificate
  end.

Definition call_country (c : call) : pyval :=
  match c with
  | RecentCall _ country _ _ _ => country
  | HistoricalCall _ country _ _ _ _ _ => country
  end.



(** The error of a body whose table cannot be used: the error of the
    parser, or ERR#0004 for a table without rows. *)
Definition table_failure (resp : response) : option exn :=
  match curr_table resp with
  | Raise e => Some e
  | Return [] => Some (Exn RuntimeError ERR0004)
  | Return (_ :: _) => None
  end.

(** The error with which a response, whatever its rows, ends a fetch: a
    status other than 200, or an unusable table; a historical fetch skips
    an empty body before it looks at the table. *)
Definition response_failure (recent : bool) (resp : response) : option exn :=
  if negb (status_code resp =? 200)
  then Some (transport_error (status_code resp))
  else if negb recent && (text resp =? EmptyString)%string then None
  else table_failure resp.

(** No request of the log was answered with a failing response. *)
Definition responses_usable (E : Env) (log : list request) : Prop :=
  forall k req,
    nth_error log k = Some req ->
    response_failure false (provider E k req) = None.

(** The text holds no "/". *)
Fixpoint no_slash (s : string) : bool :=
  match s with
  | EmptyString => true
  | String c r => negb (c =? "/")%char && no_slash r
  end.

(** The integers [lo], [lo + 1], ..., [lo + n - 1]. *)
Definition z_range (lo : Z) (n : nat) : list Z :=
  map (fun k => lo + Z.of_nat k) (seq 0 n).

Definition option_Z_eqb (a : option Z) (b : Z) : bool :=
  match a with
  | Some x => x =? b
  | None => false
  end.

(** ** search_certificates *)

(** A row of the search result: the catalog columns without [tag] and
    [id]. *)
Record certificate_row : Type := {
  c_country : string;
  c_name : string;
  c_full_name : string;
  c_symbol : string;
  c_issuer : string;
  c_isin : string;
  c_asset_class : string;
  c_underlying : string
}.

(** [certificates.drop(columns=['tag', 'id'])], row by row. *)
Definition drop_tag_id (r : instrument) : certificate_row :=
  {| c_country := country_ r; c_name := name_ r; c_full_name := full_name r;
     c_symbol := symbol_ r; c_issuer := issuer r; c_isin := isin r;
     c_asset_class := asset_class r; c_underlying := underlying r |}.

(** [certificates.columns.tolist()] after the drop. *)
Definition available_search_fields : list string :=
  ["country"; "name"; "full_name"; "symbol"; "issuer"; "isin"; "asset_class";
   "underlying"].

(** [certificates[by]] for a row, [by] being one of the columns. *)
Definition column (by_ : string) (r : certificate_row) : string :=
  if (by_ =? "country")%string then c_country r
  else if (by_ =? "name")%string then c_name r
  else if (by_ =? "full_name")%string then c_full_name r
  else if (by_ =? "symbol")%string then c_symbol r
  else if (by_ =? "issuer")%string then c_issuer r
  else if (by_ =? "isin")%string then c_isin r
  else if (by_ =? "asset_class")%string then c_asset_class r
  else c_underlying r.




(** [' or '.join(l)]. *)
Fixpoint join_or (l : list string) : string :=
  match l with
  | [] => EmptyString
  | [x] => x
  | x :: rest => x ++ " or " ++ join_or rest
  end.

Definition ERR0006 :=
  "ERR#0006: the introduced field to search is mandatory and should be a str.".
Definition ERR0017 :=
  "ERR#0017: the introduced value to search is mandatory and should be a str.".
Definition ERR0026 : string :=
  "ERR#0026: the introduced field to search can either just be "
  ++ join_or available_search_fields.
Definition ERR0043 (by_ : string) : string :=
  "ERR#0043: no results were found for the introduced " ++ by_ ++ ".".

(** What a search ends with: the re-indexed result, an exception of the
    function, or the error of [re] for a value that is not a regular
    expression. *)
Inductive search_outcome : Type :=
| Found (search_result : list certificate_row)
| Failed (e : exn)
| BadPattern.

Section Search.

Variable E : Env.

(** [Series.str.contains(value, case=False)]: the value is compiled as a
    case-insensitive regular expression ([None] when it does not compile)
    and searched for in every cell. *)
Variable contains : string -> option (string -> bool).

(** The catalog columns are columns of strings here, every cell a [str]:
    the AttributeError of [.str] on a column that [pd.read_csv] read as
    numbers or as missing values is not part of [search_outcome], and
    [text_column] marks the catalogs on which it cannot occur. *)

Definition search_certificates (by_ value : pyval) : search_outcome :=
  match certificates_csv E with
  | None => Failed (Exn FileNotFoundError ERR0096)
  | Some certificates =>
      let certificates := map drop_tag_id certificates in
      if negb (truthy by_) then Failed (Exn ValueError ERR0006) else
      match by_ with
      | PStr by_' =>
          if negb (existsb (String.eqb by_') available_search_fields)
          then Failed (Exn ValueError ERR0026) else
          if negb (truthy value) then Failed (Exn ValueError ERR0017) else
          match value with
          | PStr value' =>
              match contains value' with
              | None => BadPattern
              | Some matches =>
                  let search_result :=
                    filter (fun r => matches (column by_' r)) certificates in
                  match search_result with
                  | [] => Failed (Exn RuntimeError (ERR0043 by_'))
                  | _ => Found search_result
                  end
              end
          | _ => Failed (Exn ValueError ERR0017)
          end
      | _ => Failed (Exn ValueError ERR0006)
      end
  end.

End Search.

(** A stand-in for [str.contains(value, case=False)] on values without
    regular expression operators: case-insensitive substring search. *)
Definition literal_contains (value : string) : option (string -> bool) :=
  Some (fun cell =>
          match String.index 0 (Sample.lower value) (Sample.lower cell) with
          | Some _ => true
          | None => false
          end).

(** What a window with the parsed series [s] adds to [final]. *)
Definition window_output (a : arguments) (name : string) (s : list Data)
  : output :=
  if arg_as_json a
  then Json name "historical"
            (map certificate_as_json (ordered (arg_order a) s))
  else DataFrame (map certificate_to_dict (ordered (arg_order a) s)).

(** Every window, the first being request number [k], is answered with
    status 200 and a table of data rows only, which parse into the series
    of the same position (the row loop of the recent fetch, which accepts
    nothing but data rows, turns the table into that series). *)
Fixpoint windows_answered (E : Env) (a : arguments) (id : Z) (header : string)
  (intervals : list obj) (series : list (list Data)) (k : nat) : Prop :=
  match intervals, series with
  | [], [] => True
  | w :: ws, s :: ss =>
      let resp := provider E k (historical_request E id header
                                                   (arg_interval a) w k) in
      status_code resp = 200
      /\ text resp <> EmptyString
      /\ (exists path_,
             curr_table resp = Return path_ /\ path_ <> []
             /\ recent_rows E path_ [] = Return s)
      /\ windows_answered E a id header ws ss (S k)
  | _, _ => False
  end.



(** * Properties *)

(** ** The partition loop *)

Lemma intervals_loop_last intervals s e :
  year e - year s <= 20 ->
  intervals_loop intervals s e = Return (intervals ++ [window_obj s e])%list.
Proof.
  intros H. simp intervals_loop.
  destruct (inspect (20 <? year e - year s)) as [[] Hd]; simp intervals_loop.
  - pose proof (proj1 (Z.ltb_lt _ _) Hd). lia.
  - reflexivity.
Qed.

Lemma intervals_loop_step intervals s e next :
  20 < year e - year s ->
  replace_year s (year s + 20) = Return next ->
  intervals_loop intervals s e
  = intervals_loop (intervals ++ [window_obj s next])%list next e.
Proof.
  intros H Hn. simp intervals_loop.
  destruct (inspect (20 <? year e - year s)) as [[] Hd]; simp intervals_loop.
  - destruct (inspect (replace_year s (year s + 20))) as [[n|x] Hr];
      simp intervals_loop.
    + assert (n = next) by congruence. subst. simp intervals_loop. reflexivity.
    + congruence.
  - pose proof (proj1 (Z.ltb_ge _ _) Hd). lia.
Qed.

Lemma intervals_loop_raise intervals s e x :
  20 < year e - year s ->
  replace_year s (year s + 20) = Raise x ->
  intervals_loop intervals s e = Raise x.
Proof.
  intros H Hn. simp intervals_loop.
  destruct (inspect (20 <? year e - year s)) as [[] Hd]; simp intervals_loop.
  - destruct (inspect (replace_year s (year s + 20))) as [[n|y] Hr];
      simp intervals_loop; congruence.
  - pose proof (proj1 (Z.ltb_ge _ _) Hd). lia.
Qed.

Lemma date_ltb_spec a b :
  date_ltb a b = true <->
  year a < year b
  \/ (year a = year b
      /\ (month a < month b \/ (month a = month b /\ day a < day b))).
Proof. unfold date_ltb. lia. Qed.

Lemma date_leb_spec a b :
  date_leb a b = true <->
  year a < year b
  \/ (year a = year b
      /\ (month a < month b \/ (month a = month b /\ day a <= day b))).
Proof. unfold date_leb, date_ltb, date_eqb. lia. Qed.

Lemma valid_ymd_spec y m d :
  valid_ymd y m d = true <->
  1 <= y <= 9999 /\ 1 <= m <= 12 /\ 1 <= d <= days_in_month y m.
Proof. unfold valid_ymd. lia. Qed.

(** Away from 29 February the length of a month does not depend on the
    year, so moving a date to another year keeps it valid. *)
Lemma replace_year_ok s y :
  valid_date s = true -> is_feb29 s = false -> 1 <= y <= 9999 ->
  replace_year s y = Return (mkdate y (month s) (day s)).
Proof.
  intros Hv Hf Hy. unfold replace_year.
  assert (valid_ymd y (month s) (day s) = true) as ->; [|reflexivity].
  apply valid_ymd_spec in Hv. apply valid_ymd_spec.
  unfold is_feb29 in Hf. unfold days_in_month in *.
  destruct (month s =? 2) eqn:Hm.
  - destruct (is_leap (year s)), (is_leap y); lia.
  - lia.
Qed.

Lemma intervals_loop_cuts (N : nat) :
  forall intervals s e r,
    valid_date s = true -> is_feb29 s = false -> year e <= 9999 ->
    year e - year s = 20 * Z.of_nat N + r -> 1 <= r <= 20 ->
    intervals_loop intervals s e
    = Return (intervals ++ chain (cuts N s ++ [e]))%list.
Proof.
  induction N as [|N IH]; intros intervals s e r Hv Hf He Hd Hr.
  - apply intervals_loop_last. lia.
  - assert (Hs : 1 <= year s) by (apply valid_ymd_spec in Hv; lia).
    rewrite (intervals_loop_step intervals s e
               (mkdate (year s + 20) (month s) (day s))).
    + rewrite (IH _ _ e r).
      * cbn [cuts app chain]. rewrite <- app_assoc.
        destruct N; reflexivity.
      * apply valid_ymd_spec in Hv. apply valid_ymd_spec. cbn [year month day].
        unfold is_feb29 in Hf. unfold days_in_month in *.
        destruct (month s =? 2) eqn:Hm.
        -- destruct (is_leap (year s)), (is_leap (year s + 20)); lia.
        -- lia.
      * exact Hf.
      * exact He.
      * cbn [year]. lia.
      * exact Hr.
    + lia.
    + apply replace_year_ok; [exact Hv | exact Hf | lia].
Qed.

(** Moving 29 February by twenty years onto a common year (1900, 2100,
    ...) is refused by [replace], and the partitioner raises. *)
Lemma partition_leap_day s e :
  valid_date s = true -> is_feb29 s = true ->
  is_leap (year s + 20) = false -> 20 < year e - year s ->
  year e <= 9999 ->
  date_intervals s e
  = Raise (Exn ValueError "day is out of range for month").
Proof.
  intros Hv Hf Hl Hd He. unfold date_intervals.
  apply intervals_loop_raise; [exact Hd|].
  unfold replace_year, is_feb29 in *.
  apply valid_ymd_spec in Hv.
  assert (Hm : month s = 2 /\ day s = 29) by lia. destruct Hm as [Hm Hday].
  assert (Hinv : valid_ymd (year s + 20) (month s) (day s) = false).
  { apply not_true_is_false. rewrite valid_ymd_spec.
    unfold days_in_month. rewrite Hm, Hday, Hl. cbn. lia. }
  rewrite Hinv.
  assert (Hy : (1 <=? year s + 20) && (year s + 20 <=? 9999) = true) by lia.
  rewrite Hy. reflexivity.
Qed.

Lemma chain_length cs : List.length (chain cs) = Nat.pred (List.length cs).
Proof.
  induction cs as [|a cs IH]; [reflexivity|].
  destruct cs as [|b cs]; [reflexivity|].
  change (chain (a :: b :: cs)) with (window_obj a b :: chain (b :: cs)).
  cbn [List.length] in *. rewrite IH. reflexivity.
Qed.

Lemma cuts_length N s : List.length (cuts N s) = S N.
Proof.
  revert s. induction N as [|N IH]; intros s; [reflexivity|].
  cbn [cuts List.length]. rewrite IH. reflexivity.
Qed.

Lemma cuts_head N s : exists t, cuts N s = s :: t.
Proof. destruct N; eexists; reflexivity. Qed.

Lemma cuts_consecutive (N : nat) :
  forall s e r,
    year e - year s = 20 * Z.of_nat N + r -> 1 <= r <= 20 ->
    consecutive (fun a b => date_ltb a b = true /\ year b - year a <= 20)
                (cuts N s ++ [e]).
Proof.
  induction N as [|N IH]; intros s e r Hd Hr.
  - cbn. split; [split|exact I]; [apply date_ltb_spec|]; lia.
  - cbn [cuts app].
    destruct (cuts_head N (mkdate (year s + 20) (month s) (day s))) as [t Ht].
    pose proof (IH (mkdate (year s + 20) (month s) (day s)) e r) as IH'.
    rewrite Ht in *. cbn [app consecutive] in *.
    split.
    + split; [apply date_ltb_spec|]; cbn [year]; lia.
    + apply IH'; cbn [year]; lia.
Qed.

Lemma covered_cuts d (N : nat) :
  forall s e r,
    year e - year s = 20 * Z.of_nat N + r -> 1 <= r <= 20 ->
    date_leb s d = true -> date_leb d e = true ->
    covered d (cuts N s ++ [e]).
Proof.
  induction N as [|N IH]; intros s e r Hd Hr Hsd Hde.
  - cbn. left. split; assumption.
  - cbn [cuts app].
    set (s' := mkdate (year s + 20) (month s) (day s)).
    destruct (cuts_head N s') as [t Ht].
    pose proof (IH s' e r) as IH'. rewrite Ht in *. cbn [app covered] in *.
    destruct (date_leb d s') eqn:Hds.
    + left. split; assumption.
    + right. apply IH'; try assumption; subst s'; cbn [year]; try lia.
      apply date_leb_spec. cbn [year month day].
      assert (Hn : ~ (date_leb d (mkdate (year s + 20) (month s) (day s)) = true))
        by (rewrite Hds; discriminate).
      rewrite date_leb_spec in Hn. cbn [year month day] in Hn. lia.
Qed.

Lemma covered_cuts_inside d (N : nat) :
  forall s e r,
    year e - year s = 20 * Z.of_nat N + r -> 1 <= r <= 20 ->
    covered d (cuts N s ++ [e]) ->
    date_leb s d = true /\ date_leb d e = true.
Proof.
  induction N as [|N IH]; intros s e r Hd Hr Hc.
  - cbn in Hc. destruct Hc as [Hc|[]]. exact Hc.
  - cbn [cuts app] in Hc.
    set (s' := mkdate (year s + 20) (month s) (day s)) in *.
    destruct (cuts_head N s') as [t Ht].
    pose proof (IH s' e r) as IH'. rewrite Ht in *. cbn [app covered] in *.
    destruct Hc as [[Ha Hb]|Hc].
    + split; [exact Ha|].
      rewrite date_leb_spec in *. subst s'. cbn [year month day] in *. lia.
    + destruct IH' as [Ha Hb]; [subst s'; cbn [year]; lia | exact Hr | exact Hc |].
      split; [|exact Hb].
      rewrite date_leb_spec in *. subst s'. cbn [year month day] in *. lia.
Qed.

Lemma last_cuts N s e : last (cuts N s ++ [e]) s = e.
Proof. apply last_last. Qed.

Lemma hd_cuts N s e : hd_error (cuts N s ++ [e]) = Some s.
Proof. destruct (cuts_head N s) as [t ->]. reflexivity. Qed.

(** C5: for every valid pair of dates with [to_date] after [from_date] and
    at most 20 calendar years apart, the partitioner yields exactly one
    interval, the interval from [from_date] to [to_date] itself. *)
Theorem partition_single_window (from_date to_date : datetime) :
  valid_date from_date = true -> valid_date to_date = true ->
  date_ltb from_date to_date = true ->
  within_years 20 from_date to_date = true ->
  date_intervals from_date to_date = Return [window_obj from_date to_date].
Proof.
  intros _ _ _ Hspan. unfold date_intervals.
  rewrite intervals_loop_last; [reflexivity|].
  unfold within_years in Hspan. lia.
Qed.

Lemma partition_single_window_witness :
  within_years 20 (mkdate 2018 1 1) (mkdate 2019 1 1) = true
  /\ date_intervals (mkdate 2018 1 1) (mkdate 2019 1 1)
     = Return [{| start := "01/01/2018"; end_ := "01/01/2019" |}].
Proof.
  split; [reflexivity|].
  apply (partition_single_window (mkdate 2018 1 1) (mkdate 2019 1 1));
    reflexivity.
Defined.

(** C4, as the code has it: for every valid pair of dates with [to_date]
    after [from_date], [from_date] not a 29 February, whose calendar years
    differ by [20 * N + r] with [1 <= r <= 20], the partitioner yields
    exactly [N + 1] intervals; they run between consecutive cut points that
    start at [from_date], end at [to_date] and strictly increase, the years
    of the two ends of an interval differ by at most 20, and a date lies in
    some interval exactly when it lies between [from_date] and [to_date]. *)
Theorem partition_year_difference (from_date to_date : datetime)
  (N : nat) (r : Z) :
  valid_date from_date = true -> valid_date to_date = true ->
  date_ltb from_date to_date = true ->
  is_feb29 from_date = false ->
  year to_date - year from_date = 20 * Z.of_nat N + r -> 1 <= r <= 20 ->
  exists cs : list datetime,
    date_intervals from_date to_date = Return (chain cs)
    /\ List.length (chain cs) = S N
    /\ hd_error cs = Some from_date
    /\ last cs from_date = to_date
    /\ consecutive
         (fun a b => date_ltb a b = true /\ year b - year a <= 20) cs
    /\ (forall d, covered d cs <-> in_window d from_date to_date).
Proof.
  intros Hvf Hvt _ Hfeb Hd Hr.
  exists (cuts N from_date ++ [to_date])%list.
  assert (Hy : year to_date <= 9999) by (apply valid_ymd_spec in Hvt; lia).
  repeat split.
  - unfold date_intervals.
    rewrite (intervals_loop_cuts N [] from_date to_date r); auto.
  - rewrite chain_length, length_app, cuts_length. cbn. lia.
  - apply hd_cuts.
  - apply last_cuts.
  - apply (cuts_consecutive N from_date to_date r); assumption.
  - apply (covered_cuts_inside d N from_date to_date r); assumption.
  - apply (covered_cuts_inside d N from_date to_date r); assumption.
  - intros [Ha Hb]. apply (covered_cuts d N from_date to_date r); assumption.
Qed.

Lemma partition_year_difference_witness :
  exists cs : list datetime,
    date_intervals (mkdate 1990 1 1) (mkdate 2019 1 1) = Return (chain cs)
    /\ List.length (chain cs) = 2%nat
    /\ hd_error cs = Some (mkdate 1990 1 1)
    /\ last cs (mkdate 1990 1 1) = mkdate 2019 1 1
    /\ consecutive
         (fun a b => date_ltb a b = true /\ year b - year a <= 20) cs
    /\ (forall d, covered d cs
                  <-> in_window d (mkdate 1990 1 1) (mkdate 2019 1 1)).
Proof.
  apply (partition_year_difference (mkdate 1990 1 1) (mkdate 2019 1 1) 1 9);
    try reflexivity.
  cbn. lia.
Defined.

(** C4 as stated fails: from 01/01/2000 to 01/06/2020 the span is 20 years
    and 5 months (more than 1 * 20 years, at most 2 * 20), yet the
    partitioner yields one interval, not two, and that interval spans more
    than 20 years. *)
Lemma partition_span_counterexample :
  let from_date := mkdate 2000 1 1 in
  let to_date := mkdate 2020 6 1 in
  valid_date from_date = true /\ valid_date to_date = true
  /\ date_ltb from_date to_date = true
  /\ within_years (20 * 1) from_date to_date = false
  /\ within_years (20 * (1 + 1)) from_date to_date = true
  /\ date_intervals from_date to_date = Return [window_obj from_date to_date]
  /\ ~ (exists l, date_intervals from_date to_date = Return l
                  /\ List.length l = (1 + 1)%nat).
Proof.
  cbv zeta. repeat split.
  intros [l [Hl Hn]].
  assert (H : date_intervals (mkdate 2000 1 1) (mkdate 2020 6 1)
              = Return [window_obj (mkdate 2000 1 1) (mkdate 2020 6 1)])
    by reflexivity.
  rewrite H in Hl. injection Hl as <-. discriminate Hn.
Qed.

(** ** Validation *)

Lemma check_arguments_invalid certificate country as_json order interval :
  valid_arguments certificate country as_json order interval = false ->
  exists msg,
    check_arguments certificate country as_json order interval
    = Raise (Exn ValueError msg).
Proof.
  unfold valid_arguments, check_arguments. intros H.
  destruct certificate as [| | |s]; cbn [truthy negb];
    try (eexists; reflexivity); try (destruct b; eexists; reflexivity);
    try (destruct (z =? 0); eexists; reflexivity).
  destruct (s =? EmptyString)%string; cbn [negb] in *; [eexists; reflexivity|].
  destruct country as [| | |c]; try (eexists; reflexivity).
  destruct as_json as [|j| |]; try (eexists; reflexivity).
  cbn [andb] in H.
  destruct (in_strs order _); cbn [negb andb] in *; [|eexists; reflexivity].
  destruct interval as [| | |i]; cbn [truthy negb];
    try (eexists; reflexivity); try (destruct b; eexists; reflexivity);
    try (destruct (z =? 0); eexists; reflexivity).
  destruct (i =? EmptyString)%string; cbn [negb]; [eexists; reflexivity|].
  rewrite H. eexists; reflexivity.
Qed.

Lemma check_arguments_valid certificate country as_json order interval :
  valid_arguments certificate country as_json order interval = true ->
  exists a,
    check_arguments certificate country as_json order interval = Return a.
Proof.
  unfold valid_arguments, check_arguments. intros H.
  destruct certificate as [| | |s]; try discriminate.
  destruct country as [| | |c]; try (rewrite andb_false_r in H; discriminate).
  destruct as_json as [|j| |]; try (rewrite andb_false_r in H; discriminate).
  rewrite !andb_true_r in H.
  apply andb_prop in H as [H Hi]. apply andb_prop in H as [Hs Ho].
  cbn [truthy]. rewrite Hs, Ho. cbn [negb].
  destruct interval as [| | |i]; try discriminate.
  cbn [truthy]. rewrite Hi.
  assert (Hne : (i =? EmptyString)%string = false).
  { destruct i; [discriminate Hi | reflexivity]. }
  rewrite Hne. cbn [negb]. eexists; reflexivity.
Qed.

Lemma check_dates_invalid from_date to_date :
  valid_dates from_date to_date = false ->
  exists e,
    check_dates from_date to_date = Raise e
    /\ (exn_cls e = ValueError \/ exn_cls e = TypeError).
Proof.
  unfold valid_dates, check_dates, try_strptime, strptime. intros H.
  destruct from_date as [| | |f]; cbn;
    try (eexists; split; [reflexivity | right; reflexivity]).
  destruct (strptime_dmY f) as [a|]; cbn;
    [|eexists; split; [reflexivity | left; reflexivity]].
  destruct to_date as [| | |t]; cbn;
    try (eexists; split; [reflexivity | right; reflexivity]).
  destruct (strptime_dmY t) as [b|]; cbn;
    [|eexists; split; [reflexivity | left; reflexivity]].
  rewrite H. cbn. eexists; split; [reflexivity | left; reflexivity].
Qed.

(** C8: a call with an invalid certificate, country, as_json, order,
    interval or date argument (a malformed date string, or a from_date
    that is not before to_date) raises its validation error with no POST
    request issued. *)
Theorem validation_precedes_network (E : Env) (c : call) :
  valid_call c = false ->
  exists e,
    run (fetch E c) = (Raise e, [])
    /\ (exn_cls e = ValueError \/ exn_cls e = TypeError).
Proof.
  destruct c as [certificate country as_json order interval
                |certificate country from_date to_date as_json order interval];
    cbn [valid_call fetch]; intros H.
  - destruct (check_arguments_invalid _ _ _ _ _ H) as [msg Hc].
    exists (Exn ValueError msg). split; [|left; reflexivity].
    unfold run, get_certificate_recent_data, bind, lift. rewrite Hc.
    reflexivity.
  - destruct (valid_arguments certificate country as_json order interval)
      eqn:Ha.
    + cbn [andb] in H.
      destruct (check_arguments_valid _ _ _ _ _ Ha) as [a Hc].
      destruct (check_dates_invalid _ _ H) as [e [Hd He]].
      exists e. split; [|exact He].
      unfold run, get_certificate_historical_data, bind, lift.
      rewrite Hc, Hd. reflexivity.
    + destruct (check_arguments_invalid _ _ _ _ _ Ha) as [msg Hc].
      exists (Exn ValueError msg). split; [|left; reflexivity].
      unfold run, get_certificate_historical_data, bind, lift. rewrite Hc.
      reflexivity.
Qed.

Lemma validation_precedes_network_witness :
  exists e,
    run (fetch (Sample.env [Sample.row "france" "Example Cert" "EX1" 123]
                           ["france"] [])
               (HistoricalCall (PStr "Example Cert") (PStr "france")
                               (PStr "01/01/2019") (PStr "01/01/2018")
                               (PBool false) (PStr "ascending")
                               (PStr "Daily")))
    = (Raise e, [])
    /\ (exn_cls e = ValueError \/ exn_cls e = TypeError).
Proof.
  apply validation_precedes_network. reflexivity.
Defined.

(** ** Transport failures *)

Section Transport.

Variable E : Env.

Lemma status_ok_nil : status_ok E [].
Proof. intros k req H. destruct k; discriminate H. Qed.

Lemma status_ok_snoc log req :
  status_ok E log ->
  status_code (provider E (List.length log) req) = 200 ->
  status_ok E (log ++ [req]).
Proof.
  intros Hok Hreq k r Hk.
  destruct (Nat.lt_ge_cases k (List.length log)) as [Hlt|Hge].
  - rewrite nth_error_app1 in Hk by exact Hlt. apply Hok. exact Hk.
  - rewrite nth_error_app2 in Hk by exact Hge.
    destruct (k - List.length log)%nat as [|n] eqn:Hn.
    + cbn in Hk. injection Hk as <-.
      replace k with (List.length log) by lia. exact Hreq.
    + destruct n; discriminate Hk.
Qed.

(** A log whose last response is the only one that is not 200. *)
Lemma status_failed_last log req k r :
  status_ok E log ->
  nth_error (log ++ [req]) k = Some r ->
  status_code (provider E k r) <> 200 ->
  k = List.length log /\ r = req.
Proof.
  intros Hok Hk Hs.
  destruct (Nat.lt_ge_cases k (List.length log)) as [Hlt|Hge].
  - rewrite nth_error_app1 in Hk by exact Hlt.
    apply Hok in Hk. contradiction.
  - rewrite nth_error_app2 in Hk by exact Hge.
    destruct (k - List.length log)%nat as [|n] eqn:Hn.
    + cbn in Hk. injection Hk as <-. split; [lia | reflexivity].
    + destruct n; discriminate Hk.
Qed.

Lemma window_body_log a id header name limit w st log :
  let req := historical_request E id header (arg_interval a) w
                                (List.length log) in
  let resp := provider E (List.length log) req in
  exists out,
    window_body E a id header name limit w st log = (out, (log ++ [req])%list)
    /\ (status_code resp <> 200 ->
        out = Raise (transport_error (status_code resp))).
Proof.
  intros req resp. unfold window_body, bind, requests_post.
  fold req. fold resp.
  destruct (status_code resp =? 200) eqn:Hs; cbn [negb].
  - apply Z.eqb_eq in Hs.
    destruct (text resp =? EmptyString)%string.
    + eexists. split; [reflexivity | intros H; contradiction].
    + unfold lift. destruct (curr_table resp) as [[|row path_]|e].
      * eexists. split; [reflexivity | intros H; contradiction].
      * destruct (historical_rows E _ _ _ _ _) as [[flag result]|e].
        -- destruct flag.
           ++ destruct (arg_as_json a).
              ** eexists. split; [reflexivity | intros H; contradiction].
              ** destruct (from_records _);
                   eexists; (split; [reflexivity | intros H; contradiction]).
           ++ eexists. split; [reflexivity | intros H; contradiction].
        -- eexists. split; [reflexivity | intros H; contradiction].
      * eexists. split; [reflexivity | intros H; contradiction].
  - eexists. split; [reflexivity | intros _; reflexivity].
Qed.

Lemma windows_loop_status a id header name limit intervals :
  forall st log,
    status_ok E log ->
    forall k req,
      nth_error (snd (windows_loop E a id header name limit intervals st log))
                k = Some req ->
      status_code (provider E k req) <> 200 ->
      fst (windows_loop E a id header name limit intervals st log)
      = Raise (transport_error (status_code (provider E k req))).
Proof.
  induction intervals as [|w rest IH]; intros st log Hok k req Hk Hs.
  - cbn in Hk. apply Hok in Hk. contradiction.
  - cbn [windows_loop] in *. unfold bind in *.
    destruct (window_body_log a id header name limit w st log)
      as [out [Hbody Hfail]].
    rewrite Hbody in *.
    set (req0 := historical_request E id header (arg_interval a) w
                                    (List.length log)) in *.
    destruct (Z.eq_dec (status_code (provider E (List.length log) req0)) 200)
      as [H200|Hnot].
    + pose proof (status_ok_snoc log req0 Hok H200) as Hok'.
      destruct out as [st'|e].
      * apply (IH st' _ Hok' k req Hk Hs).
      * cbn [snd] in Hk. apply Hok' in Hk. contradiction.
    + rewrite (Hfail Hnot) in *. cbn [snd fst] in *.
      destruct (status_failed_last log req0 k req Hok Hk Hs) as [-> ->].
      reflexivity.
Qed.

End Transport.

(** ** The shape of a historical fetch *)

Lemma historical_unfold E certificate country from_date to_date as_json order
  interval log :
  get_certificate_historical_data E certificate country from_date to_date
                                  as_json order interval log
  = match historical_prelude E certificate country from_date to_date as_json
                             order interval with
    | Raise e => (Raise e, log)
    | Return (a, intervals, r) =>
        match historical_windows E a intervals r log with
        | (Return st, log') => (emit (arg_as_json a) (final st), log')
        | (Raise e, log') => (Raise e, log')
        end
    end.
Proof.
  unfold get_certificate_historical_data, historical_prelude,
    historical_windows, bind, lift, init_state.
  destruct (check_arguments _ _ _ _ _) as [a|e]; [|reflexivity]. cbn [obind].
  destruct (check_dates _ _) as [[s e]|e]; [|reflexivity]. cbn [obind fst snd].
  destruct (date_intervals s e) as [intervals|x]; [|reflexivity]. cbn [obind].
  destruct (resolve E _ _) as [[[symbol id] name]|x]; [|reflexivity].
  cbn [obind]. reflexivity.
Qed.

(** C7: in a recent or historical fetch, a response with a status other
    than 200 makes the whole call raise the ConnectionError that reports
    this status; the call returns no series. *)
Theorem transport_error_aborts (E : Env) (c : call) (k : nat) (req : request) :
  nth_error (snd (run (fetch E c))) k = Some req ->
  status_code (provider E k req) <> 200 ->
  fst (run (fetch E c))
  = Raise (Exn ConnectionError
             ("ERR#0015: error " ++ str_Z (status_code (provider E k req))
              ++ ", try again later."))
  /\ forall series, fst (run (fetch E c)) <> Return series.
Proof.
  intros Hk Hs.
  assert (H : fst (run (fetch E c))
              = Raise (transport_error (status_code (provider E k req)))).
  { destruct c as [certificate country as_json order interval
                  |certificate country from_date to_date as_json order
                     interval]; unfold run in *; cbn [fetch] in *.
    - unfold get_certificate_recent_data, bind, lift, requests_post in *.
      destruct (check_arguments _ _ _ _ _) as [a|e];
        [|destruct k; discriminate Hk].
      destruct (resolve E _ _) as [[[symbol id] name]|e];
        [|destruct k; discriminate Hk].
      cbn [List.length app] in *.
      set (req0 := recent_request E id _ _ 0) in *.
      assert (Hlog : forall o : outcome output,
                 nth_error (snd (o, [req0])) k = Some req ->
                 k = O /\ req = req0).
      { intros o Ho. cbn [snd] in Ho.
        destruct k as [|[|n]]; try discriminate Ho.
        injection Ho as <-. split; reflexivity. }
      destruct (status_code (provider E 0 req0) =? 200) eqn:H200;
        cbn [negb] in *.
      + apply Z.eqb_eq in H200. exfalso. apply Hs.
        assert (Hkr : k = O /\ req = req0).
        { destruct (curr_table (provider E 0 req0)) as [[|row path_]|e];
            [apply (Hlog _ Hk)| |apply (Hlog _ Hk)].
          destruct (recent_rows E (row :: path_) []) as [result|e];
            [|apply (Hlog _ Hk)].
          destruct (arg_as_json a); [apply (Hlog _ Hk)|].
          unfold ret in Hk. destruct (from_records _); apply (Hlog _ Hk). }
        destruct Hkr as [-> ->]. exact H200.
      + destruct (Hlog _ Hk) as [-> ->]. reflexivity.
    - rewrite historical_unfold in *.
      destruct (historical_prelude E _ _ _ _ _ _ _) as [[[a intervals] r]|e];
        [|destruct k; discriminate Hk].
      unfold historical_windows in *. destruct r as [[symbol id] name].
      pose proof (windows_loop_status E a id (symbol ++ " Historical Data")
                    name (List.length intervals) intervals init_state []
                    (status_ok_nil E) k req) as Hloop.
      destruct (windows_loop E a id _ name _ intervals init_state [])
        as [[st|e] log'] eqn:Hrun; cbn [fst snd] in *.
      + specialize (Hloop Hk Hs). discriminate Hloop.
      + specialize (Hloop Hk Hs). injection Hloop as ->. reflexivity. }
  split.
  - exact H.
  - intros series Hr. rewrite H in Hr. discriminate Hr.
Qed.

Lemma transport_error_aborts_witness :
  let E := Sample.env Scenario.catalog ["france"]
             [Sample.ok Scenario.table_2005; Scenario.failed 500] in
  let c := Scenario.historical "01/01/1990" "01/01/2019" false "ascending" in
  exists req,
    nth_error (snd (run (fetch E c))) 1 = Some req
    /\ status_code (provider E 1 req) = 500
    /\ fst (run (fetch E c))
       = Raise (Exn ConnectionError "ERR#0015: error 500, try again later.").
Proof.
  cbv zeta. eexists. split; [vm_compute; reflexivity|].
  split; [reflexivity|].
  refine (proj1 (transport_error_aborts _ _ 1%nat _ _ _)).
  - vm_compute. reflexivity.
  - vm_compute. discriminate.
Defined.

(** ** Windows with an empty body *)

Section EmptyBodies.

Variable E : Env.

Hypothesis empty_bodies :
  forall k req,
    status_code (provider E k req) = 200 /\ text (provider E k req) = EmptyString.

Lemma window_body_empty a id header name limit w st log :
  window_body E a id header name limit w st log
  = (Return {| interval_counter := S (interval_counter st);
               data_flag := data_flag st;
               final := final st |},
     (log ++ [historical_request E id header (arg_interval a) w
                                 (List.length log)])%list).
Proof.
  unfold window_body, bind, requests_post.
  destruct (empty_bodies (List.length log)
              (historical_request E id header (arg_interval a) w
                                  (List.length log))) as [-> ->].
  reflexivity.
Qed.

Lemma windows_loop_empty a id header name limit intervals :
  forall st log,
  exists st' log',
    windows_loop E a id header name limit intervals st log
    = (Return st', log')
    /\ final st' = final st
    /\ List.length log' = (List.length log + List.length intervals)%nat.
Proof.
  induction intervals as [|w rest IH]; intros st log.
  - exists st, log. cbn. repeat split. lia.
  - cbn [windows_loop]. unfold bind. rewrite window_body_empty.
    destruct (IH {| interval_counter := S (interval_counter st);
                    data_flag := data_flag st;
                    final := final st |}
                 (log ++ [historical_request E id header (arg_interval a) w
                                             (List.length log)])%list)
      as [st' [log' [Hrun [Hfinal Hlen]]]].
    exists st', log'. split; [exact Hrun|]. split; [exact Hfinal|].
    rewrite Hlen, length_app. cbn. lia.
Qed.

(** C10: when every response of a historical fetch has status 200 and an
    empty body, the call never returns a series; once the arguments are
    validated, the range partitioned and the certificate found, every
    window is requested and skipped, and the call raises an IndexError
    from indexing the empty list of window results when as_json is True,
    and the error of concatenating an empty list when as_json is False. *)
Theorem empty_bodies_never_return
  (certificate country from_date to_date as_json order interval : pyval) :
  let r := run (get_certificate_historical_data
                  E certificate country from_date to_date as_json order
                  interval) in
  (forall series, fst r <> Return series)
  /\ (forall a intervals i,
         historical_prelude E certificate country from_date to_date as_json
                            order interval = Return (a, intervals, i) ->
         List.length (snd r) = List.length intervals
         /\ fst r = Raise (if arg_as_json a
                           then Exn IndexError "list index out of range"
                           else Exn ValueError "No objects to concatenate")).
Proof.
  cbv zeta. unfold run. rewrite historical_unfold.
  destruct (historical_prelude E _ _ _ _ _ _ _) as [[[a intervals] i]|e].
  - unfold historical_windows. destruct i as [[symbol id] name].
    destruct (windows_loop_empty a id (symbol ++ " Historical Data") name
                (List.length intervals) intervals init_state [])
      as [st' [log' [Hrun [Hfinal Hlen]]]].
    rewrite Hrun. cbn [fst snd]. cbn [init_state final] in Hfinal.
    rewrite Hfinal.
    assert (Hemit : emit (arg_as_json a) []
                    = Raise (if arg_as_json a
                             then Exn IndexError "list index out of range"
                             else Exn ValueError "No objects to concatenate")).
    { unfold emit. destruct (arg_as_json a); reflexivity. }
    split.
    + intros series. rewrite Hemit. discriminate.
    + intros a' intervals' i' Heq. injection Heq as <- <- <-.
      split; [exact Hlen | exact Hemit].
  - cbn [fst snd]. split; [discriminate|]. intros a intervals i Heq.
    discriminate Heq.
Qed.

End EmptyBodies.

Lemma empty_bodies_never_return_witness :
  let E := Build_Env Sample.unidecode Sample.lower Sample.strip Sample.py_int
             Sample.py_float Sample.fromtimestamp (fun _ => 1234567)
             (fun _ => "Mozilla/5.0") (Some Scenario.catalog)
             (Return ["france"])
             (fun _ _ => {| status_code := 200; text := EmptyString;
                            curr_table := Raise (Exn ParserError
                                                   "Document is empty") |}) in
  let r := run (fetch E (Scenario.historical "01/01/1990" "01/01/2019" true
                                             "ascending")) in
  List.length (snd r) = 2%nat
  /\ fst r = Raise (Exn IndexError "list index out of range").
Proof.
  intros E r.
  assert (Hempty : forall k req,
             status_code (provider E k req) = 200
             /\ text (provider E k req) = EmptyString)
    by (intros k req; split; reflexivity).
  destruct (proj2 (empty_bodies_never_return
                     E Hempty (PStr "Example Cert") (PStr "france")
                     (PStr "01/01/1990") (PStr "01/01/2019") (PBool true)
                     (PStr "ascending") (PStr "Daily"))
                  {| arg_certificate := "Example Cert";
                     arg_country := "france";
                     arg_as_json := true;
                     arg_order := "ascending";
                     arg_interval := "Daily" |}
                  [{| start := "01/01/1990"; end_ := "01/01/2010" |};
                   {| start := "01/01/2010"; end_ := "01/01/2019" |}]
                  ("EX1", 123, "Example Cert")) as [Hlen Hraise].
  - vm_compute. reflexivity.
  - split; [exact Hlen | exact Hraise].
Defined.

(** ** Rows *)

Lemma remove_commas_filter s :
  list_ascii_of_string (remove_commas s)
  = filter (fun c => negb (c =? ",")%char) (list_ascii_of_string s).
Proof.
  induction s as [|c s IH]; [reflexivity|].
  cbn [remove_commas list_ascii_of_string filter].
  destruct (c =? ",")%char; cbn [negb]; [exact IH|].
  cbn [list_ascii_of_string]. rewrite IH. reflexivity.
Qed.

(** C9: the raw values of a data row are read in the column order date,
    close, open, high, low; the timestamp becomes a calendar date, the
    commas are removed from the four numerals before they are parsed as
    floats, and the record built from the row carries the second cell as
    close, the third as open, the fourth as high and the fifth as low.
    Both row loops append exactly this record: the loop of the recent
    fetch and the loop of the historical fetch, run on the row alone,
    return the records collected so far followed by it (the historical
    loop with its data flag set), and in front of further rows they go on
    with the record appended. *)
Theorem data_row_columns (E : Env) (td0 : td) (cells : list td)
  (ts_s close_s open_s high_s low_s : string) (more : list (option string))
  (ts : Z) (d : datetime) (c o h l : float) :
  text_content td0 <> NO_RESULTS ->
  map data_real_value (td0 :: cells)
  = Some ts_s :: Some close_s :: Some open_s :: Some high_s :: Some low_s
    :: more ->
  py_int E ts_s = Some ts ->
  fromtimestamp E ts = Return d ->
  py_float E (remove_commas close_s) = Some c ->
  py_float E (remove_commas open_s) = Some o ->
  py_float E (remove_commas high_s) = Some h ->
  py_float E (remove_commas low_s) = Some l ->
  let v := {| date := d; open := o; high := h; low := l; close := c |} in
  parse_info E (map data_real_value (td0 :: cells)) = Return v
  /\ (forall result,
         recent_rows E [td0 :: cells] result = Return (result ++ [v])%list)
  /\ (forall counter limit flag result,
         historical_rows E counter limit [td0 :: cells] flag result
         = Return (true, (result ++ [v])%list))
  /\ (forall rest result,
         recent_rows E ((td0 :: cells) :: rest) result
         = recent_rows E rest (result ++ [v]))
  /\ (forall counter limit rest flag result,
         historical_rows E counter limit ((td0 :: cells) :: rest) flag result
         = historical_rows E counter limit rest true (result ++ [v]))
  /\ (forall s,
         list_ascii_of_string (remove_commas s)
         = filter (fun x => negb (x =? ",")%char) (list_ascii_of_string s)).
Proof.
  intros Htext Hinfo Hts Hd Hc Ho Hh Hl v.
  assert (Hne : (text_content td0 =? NO_RESULTS)%string = false)
    by (apply String.eqb_neq; exact Htext).
  assert (Hparse : parse_info E (map data_real_value (td0 :: cells))
                   = Return v).
  { rewrite Hinfo. unfold parse_info, timestamp_date, price.
    cbn [nth_error]. rewrite Hts, Hd. cbn [obind].
    rewrite Hc, Ho, Hh, Hl. reflexivity. }
  assert (Hrecent : forall rest result,
             recent_rows E ((td0 :: cells) :: rest) result
             = recent_rows E rest (result ++ [v])).
  { intros rest result. cbn [recent_rows]. rewrite Hne, Hparse. reflexivity. }
  assert (Hhistorical : forall counter limit rest flag result,
             historical_rows E counter limit ((td0 :: cells) :: rest) flag
                             result
             = historical_rows E counter limit rest true (result ++ [v])).
  { intros counter limit rest flag result. cbn [historical_rows].
    rewrite Hne. cbn [obind]. rewrite Hparse. reflexivity. }
  split; [exact Hparse|]. split.
  { intros result. rewrite Hrecent. reflexivity. }
  split.
  { intros counter limit flag result. rewrite Hhistorical. reflexivity. }
  split; [exact Hrecent|]. split; [exact Hhistorical|].
  exact remove_commas_filter.
Qed.

Lemma data_row_columns_witness :
  let E := Sample.env Scenario.catalog ["france"] [] in
  let elements_ := Sample.data_tr "1107216000" "1,002.5" "1,001" "1,003"
                                  "1,000" in
  let v := {| date := mkdate 2005 2 1; open := 1001; high := 1003;
              low := 1000; close := 1002.5 |} in
  recent_rows E [elements_] [] = Return [v]
  /\ historical_rows E 1 1 [elements_] false [] = Return (true, [v]).
Proof.
  cbv zeta.
  pose proof (data_row_columns
                (Sample.env Scenario.catalog ["france"] [])
                {| text_content := "1107216000";
                   data_real_value := Some "1107216000" |}
                (map (fun x => {| text_content := x;
                                  data_real_value := Some x |})
                     ["1,002.5"; "1,001"; "1,003"; "1,000"])
                "1107216000" "1,002.5" "1,001" "1,003" "1,000" []
                1107216000 (mkdate 2005 2 1) 1002.5 1001 1003 1000
                ltac:(discriminate) eq_refl eq_refl eq_refl eq_refl eq_refl
                eq_refl eq_refl) as [_ [Hrecent [Hhistorical _]]].
  split.
  - exact (Hrecent []).
  - exact (Hhistorical 1%nat 1%nat false []).
Defined.

(** ** Windows without results *)

Section NoResults.

Variable E : Env.

Lemma historical_rows_app counter limit pre :
  forall post flag result,
    historical_rows E counter limit (pre ++ post) flag result
    = obind (historical_rows E counter limit pre flag result)
            (fun fr => historical_rows E counter limit post (fst fr) (snd fr)).
Proof.
  induction pre as [|elements_ pre IH]; intros post flag result.
  - reflexivity.
  - cbn [app historical_rows].
    destruct elements_ as [|td0 cells]; [reflexivity|].
    destruct (text_content td0 =? NO_RESULTS)%string.
    + destruct (counter <? limit)%nat; cbn [obind]; [apply IH | reflexivity].
    + cbn [obind]. destruct (parse_info E _); cbn [obind];
        [apply IH | reflexivity].
Qed.

Lemma window_body_counter a id header name limit w st log st' log' :
  window_body E a id header name limit w st log = (Return st', log') ->
  interval_counter st' = S (interval_counter st).
Proof.
  unfold window_body, bind, requests_post, lift, ret, raise.
  destruct (negb _); [discriminate|].
  destruct (text _ =? EmptyString)%string; [intros H; injection H as <- _; reflexivity|].
  destruct (curr_table _) as [[|row path_]|e]; try discriminate.
  destruct (historical_rows E _ _ _ _ _) as [[flag result]|e];
    [|discriminate].
  destruct flag.
  - destruct (arg_as_json a).
    + intros H; injection H as <- _; reflexivity.
    + destruct (from_records _); [|discriminate].
      intros H; injection H as <- _; reflexivity.
  - intros H; injection H as <- _; reflexivity.
Qed.

Lemma windows_loop_counter a id header name limit ws :
  forall st log st' log',
    windows_loop E a id header name limit ws st log = (Return st', log') ->
    interval_counter st' = (interval_counter st + List.length ws)%nat.
Proof.
  induction ws as [|w ws IH]; intros st log st' log' H.
  - cbn in H. injection H as <- _. cbn. lia.
  - cbn [windows_loop] in H. unfold bind in H.
    destruct (window_body E a id header name limit w st log)
      as [[st1|e] log1] eqn:Hbody; [|discriminate].
    apply window_body_counter in Hbody. apply IH in H.
    rewrite H, Hbody. cbn [List.length]. lia.
Qed.

Lemma windows_loop_app a id header name limit ws :
  forall ws' st log,
    windows_loop E a id header name limit (ws ++ ws') st log
    = match windows_loop E a id header name limit ws st log with
      | (Return st', log') =>
          windows_loop E a id header name limit ws' st' log'
      | (Raise e, log') => (Raise e, log')
      end.
Proof.
  induction ws as [|w ws IH]; intros ws' st log.
  - reflexivity.
  - cbn [app windows_loop]. unfold bind.
    destruct (window_body E a id header name limit w st log) as [[st1|e] log1];
      [apply IH | reflexivity].
Qed.

(** A window whose table runs into the marker row, after rows that were
    processed without error. *)
Lemma window_body_marker a id header name limit w st log pre post td0 cells
  flag result :
  let req := historical_request E id header (arg_interval a) w
                                (List.length log) in
  let resp := provider E (List.length log) req in
  status_code resp = 200 -> text resp <> EmptyString ->
  curr_table resp = Return (pre ++ (td0 :: cells) :: post)%list ->
  text_content td0 = NO_RESULTS ->
  historical_rows E (S (interval_counter st)) limit pre (data_flag st) []
  = Return (flag, result) ->
  window_body E a id header name limit w st log
  = if (S (interval_counter st) <? limit)%nat
    then match historical_rows E (S (interval_counter st)) limit post false
                               result with
         | Return (true, result') =>
             if arg_as_json a
             then (Return {| interval_counter := S (interval_counter st);
                             data_flag := true;
                             final := (final st
                                       ++ [Json name "historical"
                                             (map certificate_as_json
                                                  (ordered (arg_order a)
                                                           result'))])%list |},
                   (log ++ [req])%list)
             else match from_records (map certificate_to_dict
                                          (ordered (arg_order a) result')) with
                  | Return df =>
                      (Return {| interval_counter := S (interval_counter st);
                                 data_flag := true;
                                 final := (final st ++ [df])%list |},
                       (log ++ [req])%list)
                  | Raise e => (Raise e, (log ++ [req])%list)
                  end
         | Return (false, _) =>
             (Return {| interval_counter := S (interval_counter st);
                        data_flag := false;
                        final := final st |},
              (log ++ [req])%list)
         | Raise e => (Raise e, (log ++ [req])%list)
         end
    else (Raise (Exn IndexError ERR0102), (log ++ [req])%list).
Proof.
  intros req resp Hstatus Htext Htable Hmarker Hpre.
  unfold window_body, bind, requests_post, lift, ret, raise.
  fold req. fold resp. rewrite Hstatus. cbn [Z.eqb Pos.eqb negb].
  apply String.eqb_neq in Htext. rewrite Htext, Htable.
  destruct (pre ++ (td0 :: cells) :: post)%list as [|row path_] eqn:Hpath.
  { destruct pre; discriminate Hpath. }
  rewrite <- Hpath. rewrite historical_rows_app, Hpre. cbn [obind fst snd].
  cbn [historical_rows]. rewrite Hmarker, String.eqb_refl.
  destruct (S (interval_counter st) <? limit)%nat; cbn [obind];
    [|reflexivity].
  destruct (historical_rows E _ _ post false result) as [[[|] result']|e];
    try reflexivity.
  destruct (arg_as_json a); [reflexivity|].
  destruct (from_records _); reflexivity.
Qed.

End NoResults.

(** C6, as the code has it: in a historical fetch, a window that is not
    the last and whose table ends with a row whose first cell reads
    "No results found", the rows before it processed without error,
    contributes no records, and the call goes on with the next window;
    such a row reached in the last window makes the whole call raise the
    IndexError ERR#0102, whatever the earlier windows have accumulated. *)
Theorem no_results_window (E : Env)
  (certificate country from_date to_date as_json order interval : pyval)
  (a : arguments) (ws : list obj) (w : obj) (rest : list obj)
  (symbol : string) (id : Z) (name : string)
  (st : loop_state) (log : list request)
  (pre : list tr) (td0 : td) (cells : list td) (post : list tr)
  (flag : bool) (result : list Data) :
  let intervals := (ws ++ w :: rest)%list in
  let header := symbol ++ " Historical Data" in
  let limit := List.length intervals in
  let req := historical_request E id header (arg_interval a) w
                                (List.length log) in
  let resp := provider E (List.length log) req in
  historical_prelude E certificate country from_date to_date as_json order
                     interval = Return (a, intervals, (symbol, id, name)) ->
  windows_loop E a id header name limit ws init_state [] = (Return st, log) ->
  status_code resp = 200 -> text resp <> EmptyString ->
  curr_table resp = Return (pre ++ (td0 :: cells) :: post)%list ->
  text_content td0 = NO_RESULTS ->
  historical_rows E (S (List.length ws)) limit pre (data_flag st) []
  = Return (flag, result) ->
  (rest <> [] -> post = [] ->
   run (get_certificate_historical_data E certificate country from_date
                                        to_date as_json order interval)
   = match windows_loop E a id header name limit rest
                        {| interval_counter := S (List.length ws);
                           data_flag := false;
                           final := final st |}
                        (log ++ [req])%list with
     | (Return st', log') => (emit (arg_as_json a) (final st'), log')
     | (Raise e, log') => (Raise e, log')
     end)
  /\ (rest = [] ->
      run (get_certificate_historical_data E certificate country from_date
                                           to_date as_json order interval)
      = (Raise (Exn IndexError ERR0102), (log ++ [req])%list)).
Proof.
  intros intervals header limit req resp Hprelude Hws Hstatus Htext Htable
         Hmarker Hpre.
  assert (Hcounter : interval_counter st = List.length ws).
  { apply windows_loop_counter in Hws. exact Hws. }
  assert (Hrun : run (get_certificate_historical_data
                        E certificate country from_date to_date as_json order
                        interval)
                 = match windows_loop E a id header name limit (w :: rest) st
                                      log with
                   | (Return st', log') =>
                       (emit (arg_as_json a) (final st'), log')
                   | (Raise e, log') => (Raise e, log')
                   end).
  { unfold run. rewrite historical_unfold, Hprelude.
    unfold historical_windows. fold header. fold limit.
    unfold intervals. rewrite windows_loop_app. fold intervals. fold limit.
    rewrite Hws. reflexivity. }
  rewrite <- Hcounter in Hpre.
  pose proof (window_body_marker E a id header name limit w st log pre post
                td0 cells flag result Hstatus Htext Htable Hmarker Hpre)
    as Hbody.
  fold req in Hbody.
  assert (Hlimit : limit = (List.length ws + S (List.length rest))%nat).
  { unfold limit, intervals. rewrite length_app. reflexivity. }
  split.
  - intros Hrest Hpost. subst post. rewrite Hrun.
    cbn [windows_loop]. unfold bind. rewrite Hbody.
    assert (Hlt : (S (interval_counter st) <? limit)%nat = true).
    { apply Nat.ltb_lt. destruct rest; [contradiction|]. cbn in Hlimit. lia. }
    rewrite Hlt. cbn [historical_rows]. rewrite Hcounter. reflexivity.
  - intros ->. rewrite Hrun. cbn [windows_loop]. unfold bind. rewrite Hbody.
    assert (Hge : (S (interval_counter st) <? limit)%nat = false).
    { apply Nat.ltb_ge. cbn in Hlimit. lia. }
    rewrite Hge. reflexivity.
Qed.

Lemma no_results_window_witness :
  let skipped := Sample.env Scenario.catalog ["france"]
                   [Sample.ok [Sample.no_results_tr];
                    Sample.ok Scenario.table_2018] in
  let fatal := Sample.env Scenario.catalog ["france"]
                 [Sample.ok Scenario.table_2005;
                  Sample.ok [Sample.no_results_tr]] in
  let c := Scenario.historical "01/01/1990" "01/01/2019" false "ascending" in
  Scenario.dates_of (fst (run (fetch skipped c)))
  = ["02/01/2018"; "01/06/2018"]
  /\ fst (run (fetch fatal c)) = Raise (Exn IndexError ERR0102).
Proof.
  cbv zeta.
  pose (a := {| arg_certificate := "Example Cert"; arg_country := "france";
                arg_as_json := false; arg_order := "ascending";
                arg_interval := "Daily" |}).
  pose (w1 := {| start := "01/01/1990"; end_ := "01/01/2010" |}).
  pose (w2 := {| start := "01/01/2010"; end_ := "01/01/2019" |}).
  pose (marker := {| text_content := NO_RESULTS; data_real_value := None |}).
  split.
  - pose (E := Sample.env Scenario.catalog ["france"]
                 [Sample.ok [Sample.no_results_tr];
                  Sample.ok Scenario.table_2018]).
    assert (Hrun := proj1 (no_results_window
                       E (PStr "Example Cert") (PStr "france")
                       (PStr "01/01/1990") (PStr "01/01/2019") (PBool false)
                       (PStr "ascending") (PStr "Daily")
                       a [] w1 [w2] "EX1" 123 "Example Cert" init_state []
                       [] marker [] [] false []
                       ltac:(vm_compute; reflexivity)
                       ltac:(vm_compute; reflexivity)
                       ltac:(vm_compute; reflexivity)
                       ltac:(vm_compute; discriminate)
                       ltac:(vm_compute; reflexivity)
                       ltac:(vm_compute; reflexivity)
                       ltac:(vm_compute; reflexivity))
                   ltac:(discriminate) eq_refl).
    unfold Scenario.historical, fetch. fold E. rewrite Hrun.
    vm_compute. reflexivity.
  - pose (E := Sample.env Scenario.catalog ["france"]
                 [Sample.ok Scenario.table_2005;
                  Sample.ok [Sample.no_results_tr]]).
    pose (r := windows_loop E a 123 "EX1 Historical Data" "Example Cert" 2
                            [w1] init_state []).
    pose (st := match fst r with Return s => s | Raise _ => init_state end).
    assert (Hrun := proj2 (no_results_window
                       E (PStr "Example Cert") (PStr "france")
                       (PStr "01/01/1990") (PStr "01/01/2019") (PBool false)
                       (PStr "ascending") (PStr "Daily")
                       a [w1] w2 [] "EX1" 123 "Example Cert" st (snd r)
                       [] marker [] [] true []
                       ltac:(vm_compute; reflexivity)
                       ltac:(vm_compute; reflexivity)
                       ltac:(vm_compute; reflexivity)
                       ltac:(vm_compute; discriminate)
                       ltac:(vm_compute; reflexivity)
                       ltac:(vm_compute; reflexivity)
                       ltac:(vm_compute; reflexivity))
                   eq_refl).
    unfold Scenario.historical, fetch. fold E. rewrite Hrun. reflexivity.
Defined.

(** C6 as stated fails: the first of two windows holds a "No results
    found" row followed by a data row; the window is not the last, yet it
    contributes the record of 01/03/2005 to the returned table. *)
Lemma no_results_row_counterexample :
  let E := Sample.env Scenario.catalog ["france"]
             [Sample.ok [Sample.no_results_tr;
                         Sample.data_tr "1109635200" "3.5" "3" "4" "2"];
              Sample.ok Scenario.table_2018] in
  let c := Scenario.historical "01/01/1990" "01/01/2019" false "descending" in
  Scenario.dates_of (fst (run (fetch E c)))
  = ["01/03/2005"; "01/06/2018"; "02/01/2018"].
Proof. vm_compute. reflexivity. Qed.

(** ** Merging and ordering *)

Lemma ordered_reverse result :
  ordered "ascending" result = rev (ordered "descending" result).
Proof. reflexivity. Qed.

(** In the structured mode only the first window that held data is
    emitted. *)
Lemma emit_json_head json_ rest : emit true (json_ :: rest) = Return json_.
Proof. reflexivity. Qed.

(** C1, on the code: a fetch from 01/01/1990 to 01/01/2019 is cut into two
    windows, both answered with two data rows.  The tabular mode returns
    the four records, each window reversed on its own; the structured mode
    returns the two records of the first window only. *)
Theorem structured_mode_drops_windows :
  let E := Sample.env Scenario.catalog ["france"]
             [Sample.ok Scenario.table_2005; Sample.ok Scenario.table_2018] in
  let tabular := Scenario.historical "01/01/1990" "01/01/2019" false
                                     "ascending" in
  let structured := Scenario.historical "01/01/1990" "01/01/2019" true
                                        "ascending" in
  Scenario.dates_of (fst (run (fetch E tabular)))
  = ["01/02/2005"; "01/03/2005"; "02/01/2018"; "01/06/2018"]
  /\ Scenario.dates_of (fst (run (fetch E structured)))
     = ["01/02/2005"; "01/03/2005"]
  /\ List.length (snd (run (fetch E structured))) = 2%nat.
Proof. vm_compute. repeat split. Qed.

(** C2, on the code: for the same two windows the descending table keeps
    the windows in request order, oldest window first, so it is not the
    reverse of the ascending table. *)
Theorem descending_keeps_window_order :
  let E := Sample.env Scenario.catalog ["france"]
             [Sample.ok Scenario.table_2005; Sample.ok Scenario.table_2018] in
  let ascending := Scenario.historical "01/01/1990" "01/01/2019" false
                                       "ascending" in
  let descending := Scenario.historical "01/01/1990" "01/01/2019" false
                                        "descending" in
  Scenario.dates_of (fst (run (fetch E ascending)))
  = ["01/02/2005"; "01/03/2005"; "02/01/2018"; "01/06/2018"]
  /\ Scenario.dates_of (fst (run (fetch E descending)))
     = ["01/03/2005"; "01/02/2005"; "01/06/2018"; "02/01/2018"]
  /\ Scenario.rows_of (fst (run (fetch E ascending)))
     <> rev (Scenario.rows_of (fst (run (fetch E descending)))).
Proof.
  cbv zeta. split; [vm_compute; reflexivity|].
  split; [vm_compute; reflexivity|].
  intros H.
  apply (f_equal (map (fun x => month (col_Date x)))) in H.
  vm_compute in H. discriminate H.
Qed.

(** ** Name resolution *)

(** C3, on the code: the accented and the unaccented spelling normalise
    to the same text and both pass the membership test, but the row is
    selected by comparing lower-cased names that are not accent-stripped;
    the unaccented spelling matches no row and the lookup falls back on the
    first row of the country. *)
Theorem unaccented_query_selects_first_row :
  let E := Sample.env accented_catalog ["france"] [] in
  unidecode E (lower E (strip E "Société X"))
  = unidecode E (lower E (strip E "SOCIETE X"))
  /\ resolve E "Société X" "France" = Return ("SX", 2, "Société X")
  /\ resolve E "SOCIETE X" "FRANCE" = Return ("A1", 1, "Alpha").
Proof. vm_compute. repeat split. Qed.

(** * Further properties *)

(** ** The partitioner on every input *)

Lemma replace_year_returns s y next :
  replace_year s y = Return next -> next = mkdate y (month s) (day s).
Proof.
  unfold replace_year. destruct (valid_ymd y (month s) (day s)).
  - intros H. injection H as <-. reflexivity.
  - destruct ((1 <=? y) && (y <=? 9999)); discriminate.
Qed.

Lemma intervals_loop_shape (n : nat) :
  forall intervals s e l,
    year e - year s <= 20 * Z.of_nat n + 20 ->
    intervals_loop intervals s e = Return l ->
    l = (intervals
         ++ chain (cuts (Z.to_nat ((year e - year s - 1) / 20)) s ++ [e]))%list.
Proof.
  induction n as [|n IH]; intros intervals s e l Hn Hl.
  - rewrite intervals_loop_last in Hl by lia. injection Hl as <-.
    assert (H0 : (year e - year s - 1) / 20 <= 0).
    { apply Z.lt_succ_r. apply Z.div_lt_upper_bound; lia. }
    replace (Z.to_nat ((year e - year s - 1) / 20)) with O by lia.
    reflexivity.
  - destruct (Z_le_gt_dec (year e - year s) 20) as [Hle|Hgt].
    + rewrite intervals_loop_last in Hl by lia. injection Hl as <-.
      assert (H0 : (year e - year s - 1) / 20 <= 0).
      { apply Z.lt_succ_r. apply Z.div_lt_upper_bound; lia. }
      replace (Z.to_nat ((year e - year s - 1) / 20)) with O by lia.
      reflexivity.
    + destruct (replace_year s (year s + 20)) as [next|x] eqn:Hr.
      * pose proof (replace_year_returns _ _ _ Hr) as ->.
        rewrite (intervals_loop_step intervals s e _ ltac:(lia) Hr) in Hl.
        apply IH in Hl; [|cbn [year]; lia]. subst l. cbn [year].
        assert (Hdiv : (year e - year s - 1) / 20
                       = (year e - (year s + 20) - 1) / 20 + 1).
        { replace (year e - year s - 1)
            with (year e - (year s + 20) - 1 + 1 * 20) by lia.
          apply Z.div_add. lia. }
        assert (Hpos : 0 <= (year e - (year s + 20) - 1) / 20)
          by (apply Z.div_pos; lia).
        rewrite Hdiv.
        replace (Z.to_nat ((year e - (year s + 20) - 1) / 20 + 1))
          with (S (Z.to_nat ((year e - (year s + 20) - 1) / 20))) by lia.
        cbn [cuts app].
        destruct (cuts_head (Z.to_nat ((year e - (year s + 20) - 1) / 20))
                    (mkdate (year s + 20) (month s) (day s))) as [t Ht].
        rewrite Ht. cbn [app chain]. rewrite <- app_assoc. reflexivity.
      * rewrite (intervals_loop_raise intervals s e x ltac:(lia) Hr) in Hl.
        discriminate Hl.
Qed.

Lemma date_intervals_shape (start_date end_date : datetime) (l : list obj) :
  date_intervals start_date end_date = Return l ->
  let N := Z.to_nat ((year end_date - year start_date - 1) / 20) in
  l = chain (cuts N start_date ++ [end_date])
  /\ List.length l = S N
  /\ (exists w rest, l = w :: rest /\ start w = strftime_mdY start_date)
  /\ (exists front w, l = (front ++ [w])%list
                      /\ end_ w = strftime_mdY end_date).
Proof.
  intros Hl N.
  assert (Hshape : l = chain (cuts N start_date ++ [end_date])).
  { unfold date_intervals in Hl.
    apply (intervals_loop_shape (Z.to_nat (year end_date - year start_date)))
      in Hl; [exact Hl | lia]. }
  split; [exact Hshape|]. subst l. split; [|split].
  - rewrite chain_length, length_app, cuts_length. cbn. lia.
  - destruct (cuts_head N start_date) as [t Ht]. rewrite Ht.
    destruct t as [|b t]; cbn [app chain]; eexists; eexists;
      (split; [reflexivity | reflexivity]).
  - clear Hl. generalize start_date. induction N as [|N IH]; intros s.
    + exists [], (window_obj s end_date). split; reflexivity.
    + destruct (IH (mkdate (year s + 20) (month s) (day s)))
        as [front [w [Hfw Hend]]].
      exists (window_obj s (mkdate (year s + 20) (month s) (day s)) :: front), w.
      split; [|exact Hend].
      cbn [cuts app].
      destruct (cuts_head N (mkdate (year s + 20) (month s) (day s)))
        as [t Ht].
      rewrite Ht in *. cbn [app chain] in *. rewrite Hfw. reflexivity.
Qed.

(** X1: Whenever the partitioner returns, for any two datetimes, it returns
    the windows between the cut points start, start + 20 years, ...,
    closed by the end date: one window when the year numbers differ by at
    most 20, and one more for every further 20 years. *)
Theorem partition_shape (start_date end_date : datetime) (l : list obj) :
  date_intervals start_date end_date = Return l ->
  let N := Z.to_nat ((year end_date - year start_date - 1) / 20) in
  l = chain (cuts N start_date ++ [end_date])
  /\ List.length l = S N
  /\ (exists w rest, l = w :: rest /\ start w = strftime_mdY start_date)
  /\ (exists front w, l = (front ++ [w])%list
                      /\ end_ w = strftime_mdY end_date).
Proof. exact (date_intervals_shape start_date end_date l). Qed.

Lemma partition_shape_witness :
  let l := [{| start := "06/30/1975"; end_ := "06/30/1995" |};
            {| start := "06/30/1995"; end_ := "06/30/2015" |};
            {| start := "06/30/2015"; end_ := "01/01/2019" |}] in
  date_intervals (mkdate 1975 6 30) (mkdate 2019 1 1) = Return l
  /\ List.length l = 3%nat.
Proof.
  intros l.
  assert (H : date_intervals (mkdate 1975 6 30) (mkdate 2019 1 1) = Return l)
    by (vm_compute; reflexivity).
  split; [exact H|].
  exact (proj1 (proj2 (partition_shape (mkdate 1975 6 30) (mkdate 2019 1 1)
                                       l H))).
Defined.

Lemma intervals_loop_raises (n : nat) :
  forall intervals s e x,
    year e - year s <= 20 * Z.of_nat n + 20 ->
    1 <= year s -> year e <= 9999 ->
    intervals_loop intervals s e = Raise x ->
    x = Exn ValueError "day is out of range for month".
Proof.
  induction n as [|n IH]; intros intervals s e x Hn Hs He Hx.
  - rewrite intervals_loop_last in Hx by lia. discriminate Hx.
  - destruct (Z_le_gt_dec (year e - year s) 20) as [Hle|Hgt].
    + rewrite intervals_loop_last in Hx by lia. discriminate Hx.
    + destruct (replace_year s (year s + 20)) as [next|y] eqn:Hr.
      * pose proof (replace_year_returns _ _ _ Hr) as ->.
        rewrite (intervals_loop_step intervals s e _ ltac:(lia) Hr) in Hx.
        apply IH in Hx; [exact Hx | cbn [year]; lia | cbn [year]; lia | exact He].
      * rewrite (intervals_loop_raise intervals s e y ltac:(lia) Hr) in Hx.
        injection Hx as <-. unfold replace_year in Hr.
        destruct (valid_ymd _ _ _); [discriminate|].
        assert (Hy : (1 <=? year s + 20) && (year s + 20 <=? 9999) = true)
          by lia.
        rewrite Hy in Hr. injection Hr as <-. reflexivity.
Qed.

Lemma date_intervals_raise (start_date end_date : datetime) (x : exn) :
  valid_date start_date = true -> valid_date end_date = true ->
  date_intervals start_date end_date = Raise x ->
  is_feb29 start_date = true
  /\ x = Exn ValueError "day is out of range for month".
Proof.
  intros Hs He Hx.
  pose proof (proj1 (valid_ymd_spec _ _ _) Hs) as Hs'.
  pose proof (proj1 (valid_ymd_spec _ _ _) He) as He'.
  split.
  - destruct (is_feb29 start_date) eqn:Hf; [reflexivity|]. exfalso.
    unfold date_intervals in Hx.
    destruct (Z_le_gt_dec (year end_date - year start_date) 20) as [Hle|Hgt].
    + rewrite intervals_loop_last in Hx by lia. discriminate Hx.
    + set (d := year end_date - year start_date) in *.
      rewrite (intervals_loop_cuts (Z.to_nat ((d - 1) / 20)) [] start_date
                 end_date (d - 20 * ((d - 1) / 20))) in Hx;
        try assumption; try lia.
      * discriminate Hx.
      * assert (0 <= (d - 1) / 20) by (apply Z.div_pos; lia). lia.
      * pose proof (Z.div_mod (d - 1) 20 ltac:(lia)) as Hdm.
        pose proof (Z.mod_pos_bound (d - 1) 20 ltac:(lia)) as Hb. lia.
  - unfold date_intervals in Hx.
    apply (intervals_loop_raises
             (Z.to_nat (year end_date - year start_date))) in Hx;
      [exact Hx | lia | lia | lia].
Qed.

(** X2: On valid dates the partitioner fails only for a start on 29 February,
    and then with the ValueError of [replace]: every other start date is
    partitioned. *)
Theorem partition_raises_only_on_leap_day (start_date end_date : datetime)
  (x : exn) :
  valid_date start_date = true -> valid_date end_date = true ->
  date_intervals start_date end_date = Raise x ->
  is_feb29 start_date = true
  /\ x = Exn ValueError "day is out of range for month".
Proof. exact (date_intervals_raise start_date end_date x). Qed.

Lemma partition_raises_only_on_leap_day_witness :
  is_feb29 (mkdate 1880 2 29) = true
  /\ Exn ValueError "day is out of range for month"
     = Exn ValueError "day is out of range for month".
Proof.
  apply (partition_raises_only_on_leap_day
           (mkdate 1880 2 29) (mkdate 1950 1 1)); reflexivity.
Defined.

(** ** The requests of a fetch *)

Lemma window_requests_length E a id header intervals :
  forall k,
    List.length (window_requests E a id header intervals k)
    = List.length intervals.
Proof.
  induction intervals as [|w rest IH]; intros k; [reflexivity|].
  cbn [window_requests List.length]. rewrite IH. reflexivity.
Qed.

Lemma windows_loop_log E a id header name limit intervals :
  forall st log,
  exists n,
    (n <= List.length intervals)%nat
    /\ snd (windows_loop E a id header name limit intervals st log)
       = (log ++ firstn n (window_requests E a id header intervals
                                           (List.length log)))%list
    /\ (intervals <> [] -> (1 <= n)%nat)
    /\ (forall st',
           fst (windows_loop E a id header name limit intervals st log)
           = Return st' -> n = List.length intervals).
Proof.
  induction intervals as [|w rest IH]; intros st log.
  - exists O. cbn. rewrite app_nil_r. repeat split; try lia.
    intros H; contradiction.
  - cbn [windows_loop window_requests]. unfold bind.
    destruct (window_body_log E a id header name limit w st log)
      as [out [Hbody _]].
    rewrite Hbody.
    set (req := historical_request E id header (arg_interval a) w
                                   (List.length log)) in *.
    destruct out as [st1|e].
    + destruct (IH st1 (log ++ [req])%list) as [n [Hn [Hlog [_ Hret]]]].
      exists (S n). cbn [List.length firstn]. split; [lia|].
      split; [|split].
      * rewrite Hlog. rewrite length_app. cbn [List.length].
        replace (List.length log + 1)%nat with (S (List.length log)) by lia.
        rewrite <- app_assoc. reflexivity.
      * intros _. lia.
      * intros st' Hst'. rewrite (Hret st' Hst'). reflexivity.
    + exists 1%nat. cbn [List.length firstn snd fst]. split; [lia|].
      split; [reflexivity|]. split; [intros _; lia|].
      intros st' H. discriminate H.
Qed.

Lemma prelude_intervals E certificate country from_date to_date as_json order
  interval a intervals i :
  historical_prelude E certificate country from_date to_date as_json order
                     interval = Return (a, intervals, i) ->
  exists s e, date_intervals s e = Return intervals.
Proof.
  unfold historical_prelude.
  destruct (check_arguments _ _ _ _ _) as [a'|x]; [|discriminate].
  cbn [obind]. destruct (check_dates _ _) as [[s e]|x]; [|discriminate].
  cbn [obind fst snd].
  destruct (date_intervals s e) as [l|x] eqn:Hl; [|discriminate].
  cbn [obind]. destruct (resolve E _ _) as [r|x]; [|discriminate].
  cbn [obind]. intros H. injection H as _ <- _. exists s, e. exact Hl.
Qed.

Lemma historical_log_prefix (E : Env)
  (certificate country from_date to_date as_json order interval : pyval)
  (a : arguments) (intervals : list obj)
  (symbol : string) (id : Z) (name : string) :
  historical_prelude E certificate country from_date to_date as_json order
                     interval = Return (a, intervals, (symbol, id, name)) ->
  let r := run (get_certificate_historical_data
                  E certificate country from_date to_date as_json order
                  interval) in
  let expected := window_requests E a id (symbol ++ " Historical Data")
                                  intervals 0 in
  exists n,
    (1 <= n <= List.length intervals)%nat
    /\ snd r = firstn n expected
    /\ (forall out, fst r = Return out -> snd r = expected).
Proof.
  intros Hprelude r expected. subst r expected. unfold run.
  rewrite historical_unfold, Hprelude. unfold historical_windows.
  destruct (prelude_intervals _ _ _ _ _ _ _ _ _ _ _ Hprelude) as [s [e Hse]].
  assert (Hne : intervals <> []).
  { destruct (date_intervals_shape s e intervals Hse) as [_ [Hlen _]].
    intros ->. discriminate Hlen. }
  destruct (windows_loop_log E a id (symbol ++ " Historical Data") name
              (List.length intervals) intervals init_state [])
    as [n [Hn [Hlog [Hpos Hret]]]].
  cbn [List.length app] in Hlog.
  exists n. split; [split; [apply Hpos; exact Hne | exact Hn]|].
  destruct (windows_loop E a id _ name _ intervals init_state [])
    as [[st|x] log'] eqn:Hrun; cbn [fst snd] in *.
  - split; [exact Hlog|]. intros out _. rewrite Hlog.
    rewrite (Hret st eq_refl). rewrite <- (window_requests_length
      E a id (symbol ++ " Historical Data") intervals 0).
    apply firstn_all.
  - split; [exact Hlog|]. intros out H. discriminate H.
Qed.

(** X4: A historical fetch that gets past validation, partitioning and the
    catalog sends its requests window by window: the log is a non-empty
    prefix of the requests of the windows, in window order, each carrying
    its window's start and end date, and a call that returns has sent the
    request of every window. *)
Theorem historical_requests_follow_windows (E : Env)
  (certificate country from_date to_date as_json order interval : pyval)
  (a : arguments) (intervals : list obj)
  (symbol : string) (id : Z) (name : string) :
  historical_prelude E certificate country from_date to_date as_json order
                     interval = Return (a, intervals, (symbol, id, name)) ->
  let r := run (get_certificate_historical_data
                  E certificate country from_date to_date as_json order
                  interval) in
  let expected := window_requests E a id (symbol ++ " Historical Data")
                                  intervals 0 in
  exists n,
    (1 <= n <= List.length intervals)%nat
    /\ snd r = firstn n expected
    /\ (forall out, fst r = Return out -> snd r = expected).
Proof.
  exact (historical_log_prefix E certificate country from_date to_date as_json
           order interval a intervals symbol id name).
Qed.

Lemma historical_requests_follow_windows_witness :
  let E := Sample.env Scenario.catalog ["france"]
             [Sample.ok Scenario.table_2005; Scenario.failed 500] in
  let a := {| arg_certificate := "Example Cert"; arg_country := "france";
              arg_as_json := false; arg_order := "ascending";
              arg_interval := "Daily" |} in
  let intervals := [{| start := "01/01/1990"; end_ := "01/01/2010" |};
                    {| start := "01/01/2010"; end_ := "01/01/2019" |}] in
  exists n,
    (1 <= n <= 2)%nat
    /\ snd (run (fetch E (Scenario.historical "01/01/1990" "01/01/2019"
                                              false "ascending")))
       = firstn n (window_requests E a 123 "EX1 Historical Data" intervals 0).
Proof.
  intros E a intervals.
  destruct (historical_requests_follow_windows
              E (PStr "Example Cert") (PStr "france") (PStr "01/01/1990")
              (PStr "01/01/2019") (PBool false) (PStr "ascending")
              (PStr "Daily") a intervals "EX1" 123 "Example Cert"
              ltac:(vm_compute; reflexivity)) as [n [Hn [Hlog _]]].
  exists n. split; [exact Hn | exact Hlog].
Defined.

(** ** Ascending against descending *)








Section Orders.

Variable E : Env.
Variables up down : string.
Hypothesis Hup : In up ["ascending"; "asc"].
Hypothesis Hdown : In down ["descending"; "desc"].



End Orders.







(** ** Returned series *)

Lemma recent_rows_length E path_ :
  forall result out,
    recent_rows E path_ result = Return out ->
    List.length out = (List.length result + List.length path_)%nat.
Proof.
  induction path_ as [|elements_ rest IH]; intros result out H.
  - cbn in H. injection H as <-. cbn. lia.
  - cbn [recent_rows] in H. destruct elements_ as [|td0 cells]; [discriminate|].
    destruct (text_content td0 =? NO_RESULTS)%string; [discriminate|].
    destruct (parse_info E _) as [v|e]; [|discriminate]. cbn [obind] in H.
    apply IH in H. rewrite H, length_app. cbn. lia.
Qed.

Lemma historical_rows_nonempty E counter limit path_ :
  forall flag result out,
    historical_rows E counter limit path_ flag result = Return (true, out) ->
    (path_ = [] -> flag = true -> result <> []) ->
    out <> [].
Proof.
  induction path_ as [|elements_ rest IH]; intros flag result out H Hinv.
  - cbn in H. injection H as -> <-. apply Hinv; reflexivity.
  - cbn [historical_rows] in H.
    destruct elements_ as [|td0 cells]; [discriminate|].
    destruct (text_content td0 =? NO_RESULTS)%string.
    + destruct (counter <? limit)%nat; [|discriminate]. cbn [obind] in H.
      apply IH in H; [exact H|]. intros _ Hf. discriminate Hf.
    + cbn [obind] in H. destruct (parse_info E _) as [v|e]; [|discriminate].
      cbn [obind] in H. apply IH in H; [exact H|].
      intros _ _. destruct result; discriminate.
Qed.

Lemma ordered_length order result :
  List.length (ordered order result) = List.length result.
Proof.
  unfold ordered. destruct (is_ascending order); [apply length_rev|reflexivity].
Qed.

Lemma window_body_series E a id header name limit w st log st' log' :
  Forall (fun o => (0 < series_length o)%nat) (final st) ->
  window_body E a id header name limit w st log = (Return st', log') ->
  Forall (fun o => (0 < series_length o)%nat) (final st').
Proof.
  intros Hst. unfold window_body, bind, requests_post, lift, ret, raise.
  destruct (negb _); [discriminate|].
  destruct (text _ =? EmptyString)%string.
  { intros H. injection H as <- _. exact Hst. }
  destruct (curr_table _) as [[|row path_]|e]; try discriminate.
  destruct (historical_rows E _ _ _ _ _) as [[flag result]|e] eqn:Hrows;
    [|discriminate].
  destruct flag.
  - assert (Hne : result <> []).
    { apply (historical_rows_nonempty _ _ _ _ _ _ _ Hrows). intros H.
      discriminate H. }
    assert (Hlen : (0 < List.length (ordered (arg_order a) result))%nat).
    { rewrite ordered_length. destruct result; [contradiction|]. cbn. lia. }
    destruct (arg_as_json a).
    + intros H. injection H as <- _. cbn [final].
      apply Forall_app. split; [exact Hst|].
      constructor; [|constructor]. cbn [series_length].
      rewrite length_map. exact Hlen.
    + unfold from_records.
      destruct (map certificate_to_dict (ordered (arg_order a) result))
        as [|x t] eqn:Hmap.
      * discriminate.
      * intros H. injection H as <- _. cbn [final].
        apply Forall_app. split; [exact Hst|].
        constructor; [|constructor]. cbn. lia.
  - intros H. injection H as <- _. exact Hst.
Qed.

Lemma windows_loop_series E a id header name limit intervals :
  forall st log st' log',
    Forall (fun o => (0 < series_length o)%nat) (final st) ->
    windows_loop E a id header name limit intervals st log
    = (Return st', log') ->
    Forall (fun o => (0 < series_length o)%nat) (final st').
Proof.
  induction intervals as [|w rest IH]; intros st log st' log' Hst H.
  - cbn in H. injection H as <- _. exact Hst.
  - cbn [windows_loop] in H. unfold bind in H.
    destruct (window_body E a id header name limit w st log)
      as [[st1|e] log1] eqn:Hbody; [|discriminate].
    apply (IH st1 log1 st' log'); [|exact H].
    apply (window_body_series _ _ _ _ _ _ _ _ _ _ _ Hst Hbody).
Qed.

(** X8: A fetch that returns, returns at least one record: neither function
    ever hands back an empty table or an empty structured series. *)
Theorem returned_series_not_empty (E : Env) (c : call) (out : output) :
  fst (run (fetch E c)) = Return out -> (0 < series_length out)%nat.
Proof.
  unfold run.
  destruct c as [certificate country as_json order interval
                |certificate country from_date to_date as_json order interval];
    cbn [fetch].
  - unfold get_certificate_recent_data, bind, lift, requests_post, ret, raise.
    destruct (check_arguments _ _ _ _ _) as [a|e]; [|discriminate].
    destruct (resolve E _ _) as [[[symbol id] name]|e]; [|discriminate].
    destruct (negb _); [discriminate|].
    destruct (curr_table _) as [[|row path_]|e]; try discriminate.
    destruct (recent_rows E (row :: path_) []) as [result|e] eqn:Hrows;
      [|discriminate].
    apply recent_rows_length in Hrows. cbn [List.length] in Hrows.
    destruct (arg_as_json a).
    + cbn [fst]. intros H. injection H as <-. cbn [series_length].
      rewrite length_map, ordered_length. lia.
    + unfold from_records.
      destruct (map certificate_to_dict (ordered (arg_order a) result))
        as [|x t] eqn:Hmap; cbn [fst]; [discriminate|].
      intros H. injection H as <-. cbn. lia.
  - rewrite historical_unfold.
    destruct (historical_prelude E _ _ _ _ _ _ _) as [[[a intervals] i]|e];
      [|discriminate].
    unfold historical_windows. destruct i as [[symbol id] name].
    destruct (windows_loop E a id _ name _ intervals init_state [])
      as [[st|e] log] eqn:Hloop; cbn [fst]; [|discriminate].
    assert (Hfinal : Forall (fun o => (0 < series_length o)%nat) (final st)).
    { eapply windows_loop_series; [|exact Hloop]. constructor. }
    unfold emit. destruct (arg_as_json a).
    + destruct (final st) as [|j rest]; [discriminate|].
      intros H. injection H as <-. inversion Hfinal. assumption.
    + unfold pd_concat. destruct (final st) as [|j rest]; [discriminate|].
      cbn [concat_rows]. destruct j as [rows|n k recs]; [|discriminate].
      destruct (concat_rows rest) as [more|e]; [|discriminate].
      cbn [obind]. intros H. injection H as <-. cbn [series_length].
      inversion Hfinal as [|? ? Hj _]. cbn [series_length] in Hj.
      rewrite length_app. lia.
Qed.

Lemma returned_series_not_empty_witness :
  let E := Sample.env Scenario.catalog ["france"]
             [Sample.ok Scenario.table_2018] in
  let out := Json "Example Cert" "recent"
                  [{| j_date := "02/01/2018"; j_open := 5; j_high := 6;
                      j_low := 4; j_close := 5.5 |};
                   {| j_date := "01/06/2018"; j_open := 10; j_high := 11;
                      j_low := 9; j_close := 10.5 |}] in
  fst (run (fetch E (Scenario.recent true "ascending"))) = Return out
  /\ (0 < series_length out)%nat.
Proof.
  intros E out.
  assert (H : fst (run (fetch E (Scenario.recent true "ascending")))
              = Return out) by (vm_compute; reflexivity).
  split; [exact H|].
  exact (returned_series_not_empty E _ out H).
Defined.

(** ** Tabular against structured *)








(** ** Catalog lookup *)

Lemma existsb_eqb_In (x : string) (l : list string) :
  existsb (String.eqb x) l = true <-> In x l.
Proof.
  rewrite existsb_exists. split.
  - intros [y [Hy Heq]]. apply String.eqb_eq in Heq. subst. exact Hy.
  - intros H. exists x. split; [exact H | apply String.eqb_refl].
Qed.




Lemma check_arguments_fields certificate country as_json order interval a :
  check_arguments certificate country as_json order interval = Return a ->
  certificate = PStr (arg_certificate a) /\ country = PStr (arg_country a).
Proof.
  unfold check_arguments.
  destruct (negb (truthy certificate)); [discriminate|].
  destruct certificate; try discriminate.
  destruct country; try discriminate.
  destruct as_json; try discriminate.
  destruct (negb (in_strs order _)); [discriminate|].
  destruct (negb (truthy interval)); [discriminate|].
  destruct interval; try discriminate.
  destruct (negb (in_strs _ _)); [discriminate|].
  intros H. injection H as <-. split; reflexivity.
Qed.

(** X11: A call for a certificate that the catalog does not resolve (missing
    catalog file, unknown country, unknown name) sends no request and
    returns nothing; a recent call with valid arguments raises exactly
    the error of the lookup. *)
Theorem unresolved_certificate_sends_nothing (E : Env) (c : call)
  (certificate country : string) (e : exn) :
  call_certificate c = PStr certificate ->
  call_country c = PStr country ->
  resolve E certificate country = Raise e ->
  snd (run (fetch E c)) = []
  /\ (exists e', fst (run (fetch E c)) = Raise e')
  /\ (is_recent c = true -> valid_call c = true ->
      fst (run (fetch E c)) = Raise e).
Proof.
  intros Hcert Hcountry Hres. unfold run.
  destruct c as [ce co as_json order interval
                |ce co from_date to_date as_json order interval];
    cbn [call_certificate call_country fetch is_recent valid_call] in *;
    subst ce co.
  - unfold get_certificate_recent_data, bind, lift.
    destruct (check_arguments _ _ _ _ _) as [a|x] eqn:Hc.
    + destruct (check_arguments_fields _ _ _ _ _ _ Hc) as [Ha Hb].
      injection Ha as Ha. injection Hb as Hb. rewrite <- Ha, <- Hb, Hres.
      cbn [fst snd]. split; [reflexivity|]. split; [eexists; reflexivity|].
      intros _ _. reflexivity.
    + cbn [fst snd]. split; [reflexivity|]. split; [eexists; reflexivity|].
      intros _ Hv. apply check_arguments_valid in Hv. destruct Hv as [a Ha].
      rewrite Ha in Hc. discriminate Hc.
  - rewrite historical_unfold. unfold historical_prelude.
    destruct (check_arguments _ _ _ _ _) as [a|x] eqn:Hc; cbn [obind].
    + destruct (check_arguments_fields _ _ _ _ _ _ Hc) as [Ha Hb].
      injection Ha as Ha. injection Hb as Hb. rewrite <- Ha, <- Hb, Hres.
      destruct (check_dates _ _) as [dates|x]; cbn [obind].
      * destruct (date_intervals _ _) as [intervals|x]; cbn [obind fst snd];
          (split; [reflexivity|]); (split; [eexists; reflexivity|]);
          intros H; discriminate H.
      * cbn [fst snd]. split; [reflexivity|]. split; [eexists; reflexivity|].
        intros H; discriminate H.
    + cbn [fst snd]. split; [reflexivity|]. split; [eexists; reflexivity|].
      intros H; discriminate H.
Qed.

Lemma unresolved_certificate_sends_nothing_witness :
  snd (run (fetch (Sample.env Scenario.catalog ["france"]
                              [Sample.ok Scenario.table_2018])
                  (RecentCall (PStr "Unknown Cert") (PStr "france")
                              (PBool false) (PStr "ascending")
                              (PStr "Daily")))) = [].
Proof.
  refine (proj1 (unresolved_certificate_sends_nothing
                   (Sample.env Scenario.catalog ["france"]
                               [Sample.ok Scenario.table_2018])
                   (RecentCall (PStr "Unknown Cert") (PStr "france")
                               (PBool false) (PStr "ascending")
                               (PStr "Daily"))
                   "Unknown Cert" "france"
                   (Exn RuntimeError
                        "ERR#0101: certificate unknown cert not found, check if it is correct.")
                   eq_refl eq_refl _)).
  vm_compute. reflexivity.
Defined.

(** ** Responses that end a fetch *)

Section Failures.

Variable E : Env.

Lemma responses_usable_snoc log req :
  responses_usable E log ->
  response_failure false (provider E (List.length log) req) = None ->
  responses_usable E (log ++ [req]).
Proof.
  intros Hok Hreq k r Hk.
  destruct (Nat.lt_ge_cases k (List.length log)) as [Hlt|Hge].
  - rewrite nth_error_app1 in Hk by exact Hlt. apply Hok. exact Hk.
  - rewrite nth_error_app2 in Hk by exact Hge.
    destruct (k - List.length log)%nat as [|n] eqn:Hn.
    + cbn in Hk. injection Hk as <-.
      replace k with (List.length log) by lia. exact Hreq.
    + destruct n; discriminate Hk.
Qed.

Lemma responses_failed_last log req k r e :
  responses_usable E log ->
  nth_error (log ++ [req]) k = Some r ->
  response_failure false (provider E k r) = Some e ->
  k = List.length log /\ r = req.
Proof.
  intros Hok Hk Hs.
  destruct (Nat.lt_ge_cases k (List.length log)) as [Hlt|Hge].
  - rewrite nth_error_app1 in Hk by exact Hlt.
    apply Hok in Hk. rewrite Hk in Hs. discriminate Hs.
  - rewrite nth_error_app2 in Hk by exact Hge.
    destruct (k - List.length log)%nat as [|n] eqn:Hn.
    + cbn in Hk. injection Hk as <-. split; [lia | reflexivity].
    + destruct n; discriminate Hk.
Qed.

Lemma window_body_failure a id header name limit w st log e :
  response_failure false
    (provider E (List.length log)
              (historical_request E id header (arg_interval a) w
                                  (List.length log))) = Some e ->
  window_body E a id header name limit w st log
  = (Raise e,
     (log ++ [historical_request E id header (arg_interval a) w
                                 (List.length log)])%list).
Proof.
  unfold response_failure, table_failure, window_body, bind, requests_post,
    lift, raise.
  set (resp := provider E (List.length log) _).
  destruct (negb (status_code resp =? 200)).
  - intros H. injection H as <-. reflexivity.
  - cbn [negb andb]. destruct (text resp =? EmptyString)%string;
      [discriminate|].
    destruct (curr_table resp) as [[|row path_]|x]; try discriminate;
      intros H; injection H as <-; reflexivity.
Qed.

Lemma windows_loop_failure a id header name limit intervals :
  forall st log,
    responses_usable E log ->
    forall k req e,
      nth_error (snd (windows_loop E a id header name limit intervals st log))
                k = Some req ->
      response_failure false (provider E k req) = Some e ->
      fst (windows_loop E a id header name limit intervals st log) = Raise e.
Proof.
  induction intervals as [|w rest IH]; intros st log Hok k req e Hk Hs.
  - cbn in Hk. apply Hok in Hk. rewrite Hk in Hs. discriminate Hs.
  - cbn [windows_loop] in *. unfold bind in *.
    set (req0 := historical_request E id header (arg_interval a) w
                                    (List.length log)) in *.
    destruct (response_failure false (provider E (List.length log) req0))
      as [e0|] eqn:Hf.
    + rewrite (window_body_failure a id header name limit w st log e0 Hf)
        in *.
      fold req0 in Hk. cbn [fst snd] in *.
      destruct (responses_failed_last log req0 k req e Hok Hk Hs) as [-> ->].
      rewrite Hf in Hs. injection Hs as <-. reflexivity.
    + pose proof (responses_usable_snoc log req0 Hok Hf) as Hok'.
      destruct (window_body_log E a id header name limit w st log)
        as [out [Hbody _]].
      fold req0 in Hbody. rewrite Hbody in *.
      destruct out as [st'|x].
      * apply (IH st' _ Hok' k req e Hk Hs).
      * cbn [snd] in Hk. apply Hok' in Hk. rewrite Hk in Hs. discriminate Hs.
Qed.

End Failures.

(** X9: In a recent or historical fetch, a response that cannot be used ends
    the whole call with its own error, whatever earlier windows have
    delivered: ConnectionError for a status other than 200, the error of
    the HTML parser for a body it rejects, RuntimeError ERR#0004 for a
    table without rows.  (A historical fetch skips a window whose body is
    empty before it parses anything.) *)
Theorem failed_response_aborts (E : Env) (c : call) (k : nat) (req : request)
  (e : exn) :
  nth_error (snd (run (fetch E c))) k = Some req ->
  response_failure (is_recent c) (provider E k req) = Some e ->
  fst (run (fetch E c)) = Raise e.
Proof.
  unfold run.
  destruct c as [certificate country as_json order interval
                |certificate country from_date to_date as_json order interval];
    cbn [fetch is_recent].
  - unfold get_certificate_recent_data, bind, lift, requests_post, ret, raise.
    destruct (check_arguments _ _ _ _ _) as [a|x];
      [|intros Hk; destruct k; discriminate Hk].
    destruct (resolve E _ _) as [[[symbol id] name]|x];
      [|intros Hk; destruct k; discriminate Hk].
    cbn [List.length app].
    set (req0 := recent_request E id _ _ 0).
    unfold response_failure, table_failure. cbn [negb andb].
    assert (Hlog : forall o : outcome output,
               nth_error (snd (o, [req0])) k = Some req ->
               k = O /\ req = req0).
    { intros o Ho. cbn [snd] in Ho.
      destruct k as [|[|n]]; try discriminate Ho.
      injection Ho as <-. split; reflexivity. }
    destruct (negb (status_code (provider E 0 req0) =? 200)) eqn:Hst.
    + intros Hk. destruct (Hlog _ Hk) as [-> ->]. rewrite Hst.
      intros H. injection H as <-. reflexivity.
    + destruct (curr_table (provider E 0 req0)) as [[|row path_]|x] eqn:Ht.
      * intros Hk. destruct (Hlog _ Hk) as [-> ->]. rewrite Hst, Ht.
        intros H. injection H as <-. reflexivity.
      * intros Hk Hf. exfalso.
        assert (Hkr : k = O /\ req = req0).
        { destruct (recent_rows E (row :: path_) []) as [result|x];
            [|apply (Hlog _ Hk)].
          destruct (arg_as_json a); [apply (Hlog _ Hk)|].
          destruct (from_records _); apply (Hlog _ Hk). }
        destruct Hkr as [-> ->]. rewrite Hst, Ht in Hf. discriminate Hf.
      * intros Hk. destruct (Hlog _ Hk) as [-> ->]. rewrite Hst, Ht.
        intros H. injection H as <-. reflexivity.
  - rewrite historical_unfold.
    destruct (historical_prelude E _ _ _ _ _ _ _) as [[[a intervals] i]|x];
      [|intros Hk; destruct k; discriminate Hk].
    unfold historical_windows. destruct i as [[symbol id] name].
    intros Hk Hs.
    assert (Hnil : responses_usable E []).
    { intros n r H. destruct n; discriminate H. }
    pose proof (windows_loop_failure E a id (symbol ++ " Historical Data")
                  name (List.length intervals) intervals init_state []
                  Hnil k req e) as Hloop.
    destruct (windows_loop E a id _ name _ intervals init_state [])
      as [[st|x] log'] eqn:Hrun; cbn [fst snd] in *.
    + specialize (Hloop Hk Hs). discriminate Hloop.
    + specialize (Hloop Hk Hs). injection Hloop as ->. reflexivity.
Qed.

Lemma failed_response_aborts_witness :
  let E := Sample.env Scenario.catalog ["france"]
             [Sample.ok Scenario.table_2005; Sample.ok []] in
  fst (run (fetch E (Scenario.historical "01/01/1990" "01/01/2019" false
                                         "ascending")))
  = Raise (Exn RuntimeError ERR0004).
Proof.
  intros E.
  refine (failed_response_aborts
            E (Scenario.historical "01/01/1990" "01/01/2019" false
                                   "ascending")
            1%nat
            (historical_request
               E 123 "EX1 Historical Data" "Daily"
               {| start := "01/01/2010"; end_ := "01/01/2019" |} 1)
            (Exn RuntimeError ERR0004) _ _).
  - vm_compute. reflexivity.
  - vm_compute. reflexivity.
Defined.

(** ** The recent fetch *)

Lemma recent_rows_app E pre :
  forall post result,
    recent_rows E (pre ++ post) result
    = obind (recent_rows E pre result) (fun r => recent_rows E post r).
Proof.
  induction pre as [|elements_ pre IH]; intros post result.
  - reflexivity.
  - cbn [app recent_rows].
    destruct elements_ as [|td0 cells]; [reflexivity|].
    destruct (text_content td0 =? NO_RESULTS)%string; [reflexivity|].
    destruct (parse_info E _); cbn [obind]; [apply IH | reflexivity].
Qed.

(** X13: A recent fetch whose table holds a "No results found" row, the rows
    before it parsed without error, raises IndexError ERR#0102 after its
    single request: there is no other window to fall back on, and the rows
    parsed so far are not returned. *)
Theorem recent_no_results (E : Env)
  (certificate country as_json order interval : pyval)
  (a : arguments) (symbol : string) (id : Z) (name : string)
  (pre : list tr) (td0 : td) (cells : list td) (post : list tr)
  (result : list Data) :
  let req := recent_request E id (symbol ++ " Historical Data")
                            (arg_interval a) 0 in
  let resp := provider E 0 req in
  check_arguments certificate country as_json order interval = Return a ->
  resolve E (arg_certificate a) (arg_country a) = Return (symbol, id, name) ->
  status_code resp = 200 ->
  curr_table resp = Return (pre ++ (td0 :: cells) :: post)%list ->
  text_content td0 = NO_RESULTS ->
  recent_rows E pre [] = Return result ->
  run (get_certificate_recent_data E certificate country as_json order
                                   interval)
  = (Raise (Exn IndexError ERR0102), [req]).
Proof.
  intros req resp Hcheck Hres Hstatus Htable Hmarker Hpre.
  unfold run, get_certificate_recent_data, bind, lift, requests_post, raise.
  rewrite Hcheck, Hres. cbn [List.length app]. fold req. fold resp.
  rewrite Hstatus. cbn [Z.eqb Pos.eqb negb]. rewrite Htable.
  destruct (pre ++ (td0 :: cells) :: post)%list as [|row path_] eqn:Hpath.
  { destruct pre; discriminate Hpath. }
  rewrite <- Hpath, recent_rows_app, Hpre. cbn [obind recent_rows].
  rewrite Hmarker, String.eqb_refl. reflexivity.
Qed.

Lemma recent_no_results_witness :
  let E := Sample.env Scenario.catalog ["france"]
             [Sample.ok [Sample.data_tr "1527811200" "10.5" "10" "11" "9";
                         Sample.no_results_tr]] in
  fst (run (fetch E (Scenario.recent false "descending")))
  = Raise (Exn IndexError ERR0102).
Proof.
  intros E.
  pose (a := {| arg_certificate := "Example Cert"; arg_country := "france";
                arg_as_json := false; arg_order := "descending";
                arg_interval := "Daily" |}).
  exact (f_equal fst
           (recent_no_results
              E (PStr "Example Cert") (PStr "france") (PBool false)
              (PStr "descending") (PStr "Daily") a "EX1" 123 "Example Cert"
              [Sample.data_tr "1527811200" "10.5" "10" "11" "9"]
              {| text_content := NO_RESULTS; data_real_value := None |} [] []
              [mkData (mkdate 2018 6 1) 10 11 9 10.5]
              eq_refl eq_refl eq_refl eq_refl eq_refl eq_refl)).
Defined.

(** X14: A recent fetch sends at most one request, and one that returns has
    sent exactly one and hands back one record for every row of the table
    it received. *)
Theorem recent_one_record_per_row (E : Env)
  (certificate country as_json order interval : pyval) :
  let r := run (get_certificate_recent_data E certificate country as_json
                                            order interval) in
  (List.length (snd r) <= 1)%nat
  /\ forall out,
       fst r = Return out ->
       exists req path_,
         snd r = [req]
         /\ curr_table (provider E 0 req) = Return path_
         /\ series_length out = List.length path_.
Proof.
  cbv zeta. unfold run, get_certificate_recent_data, bind, lift,
    requests_post, ret, raise.
  destruct (check_arguments _ _ _ _ _) as [a|e];
    [|split; [cbn; lia | intros out H; discriminate H]].
  destruct (resolve E _ _) as [[[symbol id] name]|e];
    [|split; [cbn; lia | intros out H; discriminate H]].
  cbn [List.length app].
  set (req := recent_request E id _ _ 0).
  destruct (negb _); [split; [cbn; lia | intros out H; discriminate H]|].
  destruct (curr_table (provider E 0 req)) as [[|row path_]|e] eqn:Ht;
    try (split; [cbn; lia | intros out H; discriminate H]).
  destruct (recent_rows E (row :: path_) []) as [result|e] eqn:Hrows;
    [|split; [cbn; lia | intros out H; discriminate H]].
  apply recent_rows_length in Hrows. cbn [List.length plus] in Hrows.
  destruct (arg_as_json a).
  - split; [cbn; lia|]. cbn [fst snd]. intros out H. injection H as <-.
    exists req, (row :: path_). split; [reflexivity|]. split; [exact Ht|].
    cbn [series_length]. rewrite length_map, ordered_length. exact Hrows.
  - unfold from_records.
    destruct (map certificate_to_dict (ordered (arg_order a) result))
      as [|x t] eqn:Hmap.
    + split; [cbn; lia | intros out H; discriminate H].
    + split; [cbn; lia|]. cbn [fst snd]. intros out H. injection H as <-.
      exists req, (row :: path_). split; [reflexivity|]. split; [exact Ht|].
      cbn [series_length]. rewrite <- Hmap, length_map, ordered_length.
      exact Hrows.
Qed.

(** ** Validation *)

(** X16: The argument checks accept a call exactly when the certificate is a
    non-empty str, the country a str, as_json a bool, the order one of
    ascending, asc, descending, desc and the interval one of Daily,
    Weekly, Monthly; they hand the strings on unchanged, and every
    rejection is a ValueError. *)
Theorem arguments_accepted_iff
  (certificate country as_json order interval : pyval) :
  (valid_arguments certificate country as_json order interval = true <->
   exists a,
     check_arguments certificate country as_json order interval = Return a)
  /\ (forall a,
         check_arguments certificate country as_json order interval
         = Return a ->
         certificate = PStr (arg_certificate a)
         /\ country = PStr (arg_country a)
         /\ as_json = PBool (arg_as_json a)
         /\ order = PStr (arg_order a)
         /\ interval = PStr (arg_interval a))
  /\ (forall e,
         check_arguments certificate country as_json order interval
         = Raise e -> exn_cls e = ValueError).
Proof.
  split; [|split].
  - split.
    + apply check_arguments_valid.
    + intros [a Ha].
      destruct (valid_arguments certificate country as_json order interval)
        eqn:Hv; [reflexivity|].
      destruct (check_arguments_invalid _ _ _ _ _ Hv) as [msg Hm].
      rewrite Hm in Ha. discriminate Ha.
  - unfold check_arguments. intros a.
    destruct (negb (truthy certificate)); [discriminate|].
    destruct certificate; try discriminate.
    destruct country; try discriminate.
    destruct as_json; try discriminate.
    destruct (in_strs order ["ascending"; "asc"; "descending"; "desc"])
      eqn:Ho; cbn [negb]; [|discriminate].
    destruct (negb (truthy interval)); [discriminate|].
    destruct interval; try discriminate.
    destruct (negb (in_strs _ _)); [discriminate|].
    intros H. injection H as <-. cbn.
    destruct order; try discriminate Ho. repeat split.
  - intros e He.
    destruct (valid_arguments certificate country as_json order interval)
      eqn:Hv.
    + destruct (check_arguments_valid _ _ _ _ _ Hv) as [a Ha].
      rewrite Ha in He. discriminate He.
    + destruct (check_arguments_invalid _ _ _ _ _ Hv) as [msg Hm].
      rewrite Hm in He. injection He as <-. reflexivity.
Qed.

(** ** Dates as text *)

Lemma z_range_forall (P : Z -> bool) lo n :
  forallb P (z_range lo n) = true ->
  forall z, lo <= z < lo + Z.of_nat n -> P z = true.
Proof.
  intros H z Hz. rewrite forallb_forall in H. apply H.
  unfold z_range. apply in_map_iff. exists (Z.to_nat (z - lo)).
  split; [lia|]. apply in_seq. lia.
Qed.

Lemma split_slash_field a :
  no_slash a = true ->
  forall r, split_slash (a ++ String "/" r) = a :: split_slash r.
Proof.
  induction a as [|c a IH]; intros Ha r.
  - reflexivity.
  - cbn [no_slash] in Ha. apply andb_prop in Ha as [Hc Ha].
    cbn [append split_slash].
    destruct (c =? "/")%char; [discriminate Hc|].
    rewrite (IH Ha r). reflexivity.
Qed.

Lemma split_slash_last a : no_slash a = true -> split_slash a = [a].
Proof.
  induction a as [|c a IH]; intros Ha.
  - reflexivity.
  - cbn [no_slash] in Ha. apply andb_prop in Ha as [Hc Ha].
    cbn [split_slash]. destruct (c =? "/")%char; [discriminate Hc|].
    rewrite (IH Ha). reflexivity.
Qed.

Lemma day_field_parsed d :
  1 <= d <= 31 ->
  match_day (pad2 d) = Some d /\ no_slash (pad2 d) = true.
Proof.
  intros Hd.
  assert (H : forallb (fun z => option_Z_eqb (match_day (pad2 z)) z
                                && no_slash (pad2 z)) (z_range 1 31) = true)
    by (vm_compute; reflexivity).
  pose proof (z_range_forall _ 1 31 H d ltac:(lia)) as Hz. cbn beta in Hz.
  apply andb_prop in Hz as [Hm Hs]. split; [|exact Hs].
  unfold option_Z_eqb in Hm. destruct (match_day (pad2 d)); [|discriminate].
  apply Z.eqb_eq in Hm. subst. reflexivity.
Qed.

Lemma month_field_parsed m :
  1 <= m <= 12 ->
  match_month (pad2 m) = Some m /\ no_slash (pad2 m) = true.
Proof.
  intros Hm.
  assert (H : forallb (fun z => option_Z_eqb (match_month (pad2 z)) z
                                && no_slash (pad2 z)) (z_range 1 12) = true)
    by (vm_compute; reflexivity).
  pose proof (z_range_forall _ 1 12 H m ltac:(lia)) as Hz. cbn beta in Hz.
  apply andb_prop in Hz as [Hp Hs]. split; [|exact Hs].
  unfold option_Z_eqb in Hp. destruct (match_month (pad2 m)); [|discriminate].
  apply Z.eqb_eq in Hp. subst. reflexivity.
Qed.

Lemma year_field_parsed y :
  1000 <= y <= 9999 ->
  match_year (str_Z y) = Some y /\ no_slash (str_Z y) = true.
Proof.
  intros Hy.
  assert (H : forallb (fun z => option_Z_eqb (match_year (str_Z z)) z
                                && no_slash (str_Z z))
                      (z_range 1000 (Z.to_nat 9000)) = true)
    by (vm_compute; reflexivity).
  pose proof (z_range_forall _ 1000 (Z.to_nat 9000) H y ltac:(lia)) as Hz.
  cbn beta in Hz.
  apply andb_prop in Hz as [Hp Hs]. split; [|exact Hs].
  unfold option_Z_eqb in Hp. destruct (match_year (str_Z y)); [|discriminate].
  apply Z.eqb_eq in Hp. subst. reflexivity.
Qed.

Lemma strptime_dmY_valid s d :
  strptime_dmY s = Some d -> valid_date d = true.
Proof.
  unfold strptime_dmY.
  destruct (split_slash s) as [|a [|b [|c [|x t]]]]; try discriminate.
  destruct (match_day a) as [da|]; [|discriminate].
  destruct (match_month b) as [mo|]; [|discriminate].
  destruct (match_year c) as [yr|]; [|discriminate].
  destruct (valid_ymd yr mo da) eqn:Hvalid; [|discriminate].
  intros H. injection H as <-. exact Hvalid.
Qed.

(** X18: The dates of a structured series can be fed back as from_date and
    to_date: for every existing date from the year 1000 on, parsing its
    dd/mm/yyyy rendering with the format of the validation gives the date
    back; and whatever the parser accepts is an existing date. *)
Theorem date_text_round_trip (d : datetime) :
  valid_date d = true -> 1000 <= year d ->
  strptime_dmY (strftime_dmY d) = Some d
  /\ forall s d', strptime_dmY s = Some d' -> valid_date d' = true.
Proof.
  intros Hv Hy. split.
  - pose proof (proj1 (valid_ymd_spec _ _ _) Hv) as [Hyr [Hm Hd]].
    assert (Hd31 : 1 <= day d <= 31).
    { unfold days_in_month in Hd.
      destruct (month d =? 2); [destruct (is_leap (year d)); lia|].
      destruct ((month d =? 4) || (month d =? 6) || (month d =? 9)
                || (month d =? 11)); lia. }
    destruct (day_field_parsed (day d) Hd31) as [Hday Hsd].
    destruct (month_field_parsed (month d) Hm) as [Hmonth Hsm].
    destruct (year_field_parsed (year d) ltac:(lia)) as [Hyear Hsy].
    unfold strptime_dmY, strftime_dmY.
    change (pad2 (day d) ++ "/" ++ pad2 (month d) ++ "/" ++ str_Z (year d))
      with (pad2 (day d)
            ++ String "/" (pad2 (month d) ++ String "/" (str_Z (year d)))).
    rewrite (split_slash_field _ Hsd), (split_slash_field _ Hsm),
      (split_slash_last _ Hsy).
    rewrite Hday, Hmonth, Hyear.
    unfold valid_date in Hv. rewrite Hv. destruct d; reflexivity.
  - exact strptime_dmY_valid.
Qed.

Lemma date_text_round_trip_witness :
  strptime_dmY "29/02/2020" = Some (mkdate 2020 2 29).
Proof.
  apply (proj1 (date_text_round_trip (mkdate 2020 2 29) eq_refl
                                     ltac:(cbn; lia))).
Defined.

(** ** Searching the catalog *)

Section SearchProperties.

Variable E : Env.
Variable contains : string -> option (string -> bool).


(** X20: The internal columns cannot be searched: with a readable catalog, a
    field outside the eight catalog columns, [id] and [tag] among them, is
    refused with ValueError ERR#0026, which lists the eight columns, and
    this before the value is looked at. *)
Theorem search_rejects_other_fields (catalog : list instrument)
  (field : string) (value : pyval) :
  certificates_csv E = Some catalog ->
  field <> EmptyString ->
  ~ In field available_search_fields ->
  search_certificates E contains (PStr field) value
  = Failed (Exn ValueError
              "ERR#0026: the introduced field to search can either just be country or name or full_name or symbol or issuer or isin or asset_class or underlying").
Proof.
  intros Hcsv Hne Hnot. unfold search_certificates. rewrite Hcsv.
  cbn [truthy].
  destruct (String.eqb_spec field EmptyString) as [->|_]; [contradiction|].
  cbn [negb].
  destruct (existsb (String.eqb field) available_search_fields) eqn:Hex.
  - apply existsb_eqb_In in Hex. contradiction.
  - reflexivity.
Qed.


End SearchProperties.


Lemma search_rejects_other_fields_witness :
  search_certificates (Sample.env accented_catalog ["france"] [])
                      literal_contains (PStr "id") (PStr "1")
  = Failed (Exn ValueError
              "ERR#0026: the introduced field to search can either just be country or name or full_name or symbol or issuer or isin or asset_class or underlying").
Proof.
  apply (search_rejects_other_fields
           (Sample.env accented_catalog ["france"] []) literal_contains
           accented_catalog "id" (PStr "1") eq_refl).
  - discriminate.
  - intros H. repeat (destruct H as [H|H]; [discriminate H|]). exact H.
Defined.


(** ** Dates of a call *)

(** X3: A fetch that starts on a 29 February and reaches more than 20 year
    numbers ahead cannot be partitioned when the year twenty years later
    is a common year (1900, 2100, ...): [replace] refuses the date and the
    loop raises its ValueError. *)
Theorem leap_day_start_raises (start_date end_date : datetime) :
  valid_date start_date = true -> valid_date end_date = true ->
  is_feb29 start_date = true ->
  is_leap (year start_date + 20) = false ->
  20 < year end_date - year start_date ->
  date_intervals start_date end_date
  = Raise (Exn ValueError "day is out of range for month").
Proof.
  intros Hs He Hf Hl Hd. apply partition_leap_day; try assumption.
  apply valid_ymd_spec in He. lia.
Qed.

Lemma leap_day_start_raises_witness :
  date_intervals (mkdate 1880 2 29) (mkdate 1950 1 1)
  = Raise (Exn ValueError "day is out of range for month").
Proof.
  apply leap_day_start_raises; reflexivity.
Defined.

Lemma check_dates_cases (f t : string) (to_date : pyval) :
  (strptime_dmY f = None ->
   check_dates (PStr f) to_date = Raise (Exn ValueError ERR0011))
  /\ (forall s,
         strptime_dmY f = Some s -> strptime_dmY t = None ->
         check_dates (PStr f) (PStr t) = Raise (Exn ValueError ERR0012))
  /\ (forall s e,
         strptime_dmY f = Some s -> strptime_dmY t = Some e ->
         check_dates (PStr f) (PStr t)
         = if date_ltb s e then Return (s, e)
           else Raise (Exn ValueError ERR0032)).
Proof.
  unfold check_dates, try_strptime, strptime. split; [|split].
  - intros ->. reflexivity.
  - intros s -> ->. reflexivity.
  - intros s e -> ->. cbn [obind exn_cls]. destruct (date_ltb s e); reflexivity.
Qed.

(** X17: The order of the two dates is enforced strictly: a from_date that
    does not parse raises ERR#0011 and, after a good from_date, a to_date
    that does not parse raises ERR#0012; two good dates are accepted only
    in one direction, so a range that is accepted is refused with ERR#0032
    once its bounds are swapped, and a range from a day to the same day is
    always refused with ERR#0032. *)
Theorem date_order_enforced (f t : string) (s e : datetime) :
  strptime_dmY f = Some s -> strptime_dmY t = Some e ->
  (forall dates,
      check_dates (PStr f) (PStr t) = Return dates ->
      dates = (s, e)
      /\ check_dates (PStr t) (PStr f) = Raise (Exn ValueError ERR0032))
  /\ check_dates (PStr f) (PStr f) = Raise (Exn ValueError ERR0032)
  /\ (forall bad,
         strptime_dmY bad = None ->
         check_dates (PStr bad) (PStr t) = Raise (Exn ValueError ERR0011)
         /\ check_dates (PStr f) (PStr bad)
            = Raise (Exn ValueError ERR0012)).
Proof.
  intros Hf Ht. split; [|split].
  - intros dates.
    rewrite (proj2 (proj2 (check_dates_cases f t PNone)) s e Hf Ht).
    destruct (date_ltb s e) eqn:Hlt; [|discriminate].
    intros H. injection H as <-. split; [reflexivity|].
    rewrite (proj2 (proj2 (check_dates_cases t f PNone)) e s Ht Hf).
    assert (Hgt : date_ltb e s = false).
    { apply not_true_is_false. rewrite date_ltb_spec.
      rewrite date_ltb_spec in Hlt. lia. }
    rewrite Hgt. reflexivity.
  - rewrite (proj2 (proj2 (check_dates_cases f f PNone)) s s Hf Hf).
    assert (Hirr : date_ltb s s = false).
    { apply not_true_is_false. rewrite date_ltb_spec. lia. }
    rewrite Hirr. reflexivity.
  - intros bad Hbad. split.
    + exact (proj1 (check_dates_cases bad t (PStr t)) Hbad).
    + exact (proj1 (proj2 (check_dates_cases f bad PNone)) s Hf Hbad).
Qed.

Lemma date_order_enforced_witness :
  check_dates (PStr "01/01/2018") (PStr "01/01/2018")
  = Raise (Exn ValueError ERR0032).
Proof.
  exact (proj1 (proj2 (date_order_enforced
                         "01/01/2018" "01/01/2019" (mkdate 2018 1 1)
                         (mkdate 2019 1 1) eq_refl eq_refl))).
Defined.

Lemma valid_dates_parsed f t :
  valid_dates (PStr f) (PStr t) = true ->
  exists s e,
    strptime_dmY f = Some s /\ strptime_dmY t = Some e
    /\ date_ltb s e = true
    /\ check_dates (PStr f) (PStr t) = Return (s, e).
Proof.
  unfold valid_dates.
  destruct (strptime_dmY f) as [s|] eqn:Hf; [|discriminate].
  destruct (strptime_dmY t) as [e|] eqn:Ht; [|discriminate].
  intros Hlt. exists s, e. repeat split; try assumption.
  rewrite (proj2 (proj2 (check_dates_cases f t PNone)) s e Hf Ht).
  rewrite Hlt. reflexivity.
Qed.

(** X12: A historical call with valid arguments and valid dates, whose
    from_date is not a 29 February and whose certificate the catalog
    resolves, gets through validation, partitioning and lookup, and its
    first request is sent for a window that starts at from_date. *)
Theorem valid_call_reaches_provider (E : Env)
  (certificate country as_json order interval : pyval) (f t : string)
  (s : datetime) (a : arguments) (i : string * Z * string) :
  check_arguments certificate country as_json order interval = Return a ->
  valid_dates (PStr f) (PStr t) = true ->
  strptime_dmY f = Some s -> is_feb29 s = false ->
  resolve E (arg_certificate a) (arg_country a) = Return i ->
  exists intervals w rest req log,
    historical_prelude E certificate country (PStr f) (PStr t) as_json order
                       interval = Return (a, intervals, i)
    /\ intervals = w :: rest
    /\ start w = strftime_mdY s
    /\ snd (run (get_certificate_historical_data
                   E certificate country (PStr f) (PStr t) as_json order
                   interval)) = req :: log
    /\ In ("st_date", PStr (strftime_mdY s)) (params req).
Proof.
  intros Hcheck Hdates Hf Hfeb Hres.
  destruct (valid_dates_parsed f t Hdates) as [s' [e [Hf' [Ht [Hlt Hcd]]]]].
  rewrite Hf in Hf'. injection Hf' as <-.
  pose proof (strptime_dmY_valid f s Hf) as Hvs.
  pose proof (strptime_dmY_valid t e Ht) as Hve.
  destruct (date_intervals s e) as [intervals|x] eqn:Hint.
  - destruct (date_intervals_shape s e intervals Hint)
      as [_ [_ [[w [rest [Hw Hstart]]] _]]].
    assert (Hprelude : historical_prelude E certificate country (PStr f)
                         (PStr t) as_json order interval
                       = Return (a, intervals, i)).
    { unfold historical_prelude. rewrite Hcheck. cbn [obind].
      rewrite Hcd. cbn [obind fst snd]. rewrite Hint. cbn [obind].
      rewrite Hres. reflexivity. }
    destruct i as [[symbol id] name].
    destruct (historical_log_prefix
                E certificate country (PStr f) (PStr t) as_json order interval
                a intervals symbol id name Hprelude) as [n [Hn [Hlog _]]].
    rewrite Hw in Hlog. cbn [window_requests] in Hlog.
    destruct n as [|n]; [lia|]. cbn [firstn] in Hlog.
    eexists intervals, w, rest, _, _.
    split; [exact Hprelude|]. split; [exact Hw|]. split; [exact Hstart|].
    split; [exact Hlog|].
    cbn [historical_request params]. rewrite Hstart.
    right. right. right. left. reflexivity.
  - destruct (date_intervals_raise s e x Hvs Hve Hint)
      as [Hfeb' _].
    rewrite Hfeb in Hfeb'. discriminate Hfeb'.
Qed.

Lemma valid_call_reaches_provider_witness :
  let E := Sample.env Scenario.catalog ["france"]
             [Sample.ok Scenario.table_2018] in
  exists req log,
    snd (run (fetch E (Scenario.historical "01/01/2018" "01/01/2019" false
                                           "ascending"))) = req :: log
    /\ In ("st_date", PStr "01/01/2018") (params req).
Proof.
  intros E.
  destruct (valid_call_reaches_provider
              E (PStr "Example Cert") (PStr "france") (PBool false)
              (PStr "ascending") (PStr "Daily") "01/01/2018" "01/01/2019"
              (mkdate 2018 1 1)
              {| arg_certificate := "Example Cert"; arg_country := "france";
                 arg_as_json := false; arg_order := "ascending";
                 arg_interval := "Daily" |}
              ("EX1", 123, "Example Cert")
              eq_refl eq_refl eq_refl eq_refl eq_refl)
    as [intervals [w [rest [req [log [_ [_ [_ [Hlog Hin]]]]]]]]].
  exists req, log. split; [exact Hlog | exact Hin].
Defined.

(** ** Rows that become records *)

(** X15: A record is built only from a row that has at least five cells whose
    first five all carry a raw value: the timestamp parses as an int and
    has a calendar date, and the four numerals parse as floats once their
    commas are removed.  Nothing is filled in for a missing cell. *)
Theorem record_needs_five_cells (E : Env) (info : list (option string))
  (v : Data) :
  parse_info E info = Return v ->
  exists ts_s close_s open_s high_s low_s more ts,
    info = Some ts_s :: Some close_s :: Some open_s :: Some high_s
           :: Some low_s :: more
    /\ py_int E ts_s = Some ts
    /\ fromtimestamp E ts = Return (date v)
    /\ py_float E (remove_commas close_s) = Some (close v)
    /\ py_float E (remove_commas open_s) = Some (open v)
    /\ py_float E (remove_commas high_s) = Some (high v)
    /\ py_float E (remove_commas low_s) = Some (low v).
Proof.
  unfold parse_info, timestamp_date, price.
  destruct info as [|[ts_s|] info]; cbn [nth_error]; try discriminate.
  destruct (py_int E ts_s) as [ts|] eqn:Hts; [|discriminate].
  destruct (fromtimestamp E ts) as [d|] eqn:Hd; [|discriminate].
  cbn [obind].
  destruct info as [|[close_s|] info]; cbn [nth_error]; try discriminate.
  destruct (py_float E (remove_commas close_s)) as [c|] eqn:Hc;
    [|discriminate]. cbn [obind].
  destruct info as [|[open_s|] info]; cbn [nth_error]; try discriminate.
  destruct (py_float E (remove_commas open_s)) as [o|] eqn:Ho;
    [|discriminate]. cbn [obind].
  destruct info as [|[high_s|] info]; cbn [nth_error]; try discriminate.
  destruct (py_float E (remove_commas high_s)) as [h|] eqn:Hh;
    [|discriminate]. cbn [obind].
  destruct info as [|[low_s|] more]; cbn [nth_error]; try discriminate.
  destruct (py_float E (remove_commas low_s)) as [l|] eqn:Hl;
    [|discriminate]. cbn [obind].
  intros H. injection H as <-. cbn [date open high low close].
  exists ts_s, close_s, open_s, high_s, low_s, more, ts.
  repeat split; assumption.
Qed.

Lemma record_needs_five_cells_witness :
  exists ts_s close_s open_s high_s low_s more,
    map data_real_value (Sample.data_tr "1527811200" "10.5" "10" "11" "9")
    = Some ts_s :: Some close_s :: Some open_s :: Some high_s
      :: Some low_s :: more.
Proof.
  destruct (record_needs_five_cells
              (Sample.env Scenario.catalog ["france"] [])
              (map data_real_value
                   (Sample.data_tr "1527811200" "10.5" "10" "11" "9"))
              (mkData (mkdate 2018 6 1) 10 11 9 10.5) eq_refl)
    as [ts_s [close_s [open_s [high_s [low_s [more [ts [H _]]]]]]]].
  exists ts_s, close_s, open_s, high_s, low_s, more. exact H.
Defined.

(** ** Windows that all hold data *)

Lemma historical_rows_all_data E counter limit path_ :
  forall result s flag,
    recent_rows E path_ result = Return s -> path_ <> [] ->
    historical_rows E counter limit path_ flag result = Return (true, s).
Proof.
  induction path_ as [|elements_ rest IH]; intros result s flag Hrows Hne.
  - contradiction.
  - cbn [recent_rows historical_rows] in *.
    destruct elements_ as [|td0 cells]; [discriminate|].
    destruct (text_content td0 =? NO_RESULTS)%string; [discriminate|].
    cbn [obind]. destruct (parse_info E _) as [v|e]; [|discriminate].
    cbn [obind] in *. destruct rest as [|row rest'].
    + cbn in Hrows. injection Hrows as <-. reflexivity.
    + apply IH; [exact Hrows | discriminate].
Qed.

Lemma window_body_answered E a id header name limit w st log s :
  let resp := provider E (List.length log)
                (historical_request E id header (arg_interval a) w
                                    (List.length log)) in
  status_code resp = 200 -> text resp <> EmptyString ->
  (exists path_,
      curr_table resp = Return path_ /\ path_ <> []
      /\ recent_rows E path_ [] = Return s) ->
  window_body E a id header name limit w st log
  = (Return {| interval_counter := S (interval_counter st);
               data_flag := true;
               final := (final st ++ [window_output a name s])%list |},
     (log ++ [historical_request E id header (arg_interval a) w
                                 (List.length log)])%list).
Proof.
  intros resp Hstatus Htext [path_ [Htable [Hne Hrows]]].
  unfold window_body, bind, requests_post, lift, ret, raise. fold resp.
  rewrite Hstatus. cbn [Z.eqb Pos.eqb negb].
  apply String.eqb_neq in Htext. rewrite Htext, Htable.
  destruct path_ as [|row rest]; [contradiction|].
  rewrite (historical_rows_all_data E _ _ _ [] s (data_flag st) Hrows Hne).
  apply recent_rows_length in Hrows. cbn [List.length] in Hrows.
  unfold window_output. destruct (arg_as_json a); [reflexivity|].
  unfold from_records.
  destruct (map certificate_to_dict (ordered (arg_order a) s)) as [|x t]
    eqn:Hmap; [|reflexivity].
  apply (f_equal (@List.length _)) in Hmap.
  rewrite length_map, ordered_length in Hmap. cbn in Hmap. lia.
Qed.

Lemma windows_loop_answered E a id header name limit intervals :
  forall series st log,
    windows_answered E a id header intervals series (List.length log) ->
    exists st',
      windows_loop E a id header name limit intervals st log
      = (Return st',
         (log ++ window_requests E a id header intervals (List.length log))%list)
      /\ final st' = (final st ++ map (window_output a name) series)%list.
Proof.
  induction intervals as [|w rest IH]; intros series st log Hans.
  - destruct series; [|contradiction]. exists st. cbn.
    rewrite !app_nil_r. split; reflexivity.
  - destruct series as [|s ss]; [contradiction|].
    cbn [windows_answered] in Hans.
    destruct Hans as [Hstatus [Htext [Htable Hrest]]].
    cbn [windows_loop window_requests]. unfold bind.
    rewrite (window_body_answered E a id header name limit w st log s
               Hstatus Htext Htable).
    set (req := historical_request E id header (arg_interval a) w
                                   (List.length log)) in *.
    assert (Hlen : List.length (log ++ [req])%list = S (List.length log))
      by (rewrite length_app; cbn; lia).
    rewrite <- Hlen in Hrest.
    destruct (IH ss {| interval_counter := S (interval_counter st);
                       data_flag := true;
                       final := (final st ++ [window_output a name s])%list |}
                 (log ++ [req])%list Hrest) as [st' [Hrun Hfinal]].
    exists st'. rewrite Hrun, Hlen, <- app_assoc. split; [reflexivity|].
    rewrite Hfinal. cbn [final map]. rewrite <- app_assoc. reflexivity.
Qed.

Lemma concat_rows_frames_of {A} (f : A -> list frame_row) (l : list A) :
  concat_rows (map (fun x => DataFrame (f x)) l)
  = Return (List.concat (map f l)).
Proof.
  induction l as [|x l IH]; [reflexivity|].
  cbn [map concat_rows List.concat]. rewrite IH. reflexivity.
Qed.

(** X5: When every window of a historical fetch is answered with status 200
    and a table of data rows that all parse, the call sends exactly the
    requests of its windows and returns, in the tabular mode, the
    concatenation in window order of the windows' series, each reversed on
    its own for the ascending orders; in the structured mode it returns
    the series of the first window alone. *)
Theorem answered_windows_concatenate (E : Env)
  (certificate country from_date to_date as_json order interval : pyval)
  (a : arguments) (intervals : list obj)
  (symbol : string) (id : Z) (name : string) (series : list (list Data)) :
  historical_prelude E certificate country from_date to_date as_json order
                     interval = Return (a, intervals, (symbol, id, name)) ->
  windows_answered E a id (symbol ++ " Historical Data") intervals series 0 ->
  run (get_certificate_historical_data E certificate country from_date
                                       to_date as_json order interval)
  = (Return
       (if arg_as_json a
        then Json name "historical"
                  (map certificate_as_json
                       (ordered (arg_order a) (hd [] series)))
        else DataFrame
               (List.concat
                  (map (fun s => map certificate_to_dict
                                     (ordered (arg_order a) s)) series))),
     window_requests E a id (symbol ++ " Historical Data") intervals 0).
Proof.
  intros Hprelude Hans. unfold run.
  rewrite historical_unfold, Hprelude. unfold historical_windows.
  destruct (prelude_intervals _ _ _ _ _ _ _ _ _ _ _ Hprelude) as [s [e Hse]].
  assert (Hne : intervals <> []).
  { destruct (date_intervals_shape s e intervals Hse) as [_ [Hlen _]].
    intros ->. discriminate Hlen. }
  destruct (windows_loop_answered E a id (symbol ++ " Historical Data") name
              (List.length intervals) intervals series init_state [] Hans)
    as [st' [Hrun Hfinal]].
  rewrite Hrun. cbn [app List.length]. cbn [init_state final app] in Hfinal.
  rewrite Hfinal. f_equal.
  destruct series as [|s0 ss].
  { destruct intervals; [contradiction | contradiction]. }
  unfold emit, window_output. destruct (arg_as_json a).
  - reflexivity.
  - unfold pd_concat. cbn [map].
    change (DataFrame (map certificate_to_dict (ordered (arg_order a) s0))
            :: map (fun s1 => DataFrame (map certificate_to_dict
                                             (ordered (arg_order a) s1))) ss)
      with (map (fun s1 => DataFrame (map certificate_to_dict
                                          (ordered (arg_order a) s1)))
                (s0 :: ss)).
    rewrite (concat_rows_frames_of
               (fun s1 => map certificate_to_dict (ordered (arg_order a) s1))
               (s0 :: ss)).
    reflexivity.
Qed.

Lemma answered_windows_concatenate_witness :
  let E := Sample.env Scenario.catalog ["france"]
             [Sample.ok Scenario.table_2005; Sample.ok Scenario.table_2018] in
  Scenario.dates_of
    (fst (run (fetch E (Scenario.historical "01/01/1990" "01/01/2019" false
                                            "ascending"))))
  = ["01/02/2005"; "01/03/2005"; "02/01/2018"; "01/06/2018"].
Proof.
  intros E.
  pose (a := {| arg_certificate := "Example Cert"; arg_country := "france";
                arg_as_json := false; arg_order := "ascending";
                arg_interval := "Daily" |}).
  pose (series := [[mkData (mkdate 2005 3 1) 3 4 2 3.5;
                    mkData (mkdate 2005 2 1) 1001 1003 1000 1002.5];
                   [mkData (mkdate 2018 6 1) 10 11 9 10.5;
                    mkData (mkdate 2018 1 2) 5 6 4 5.5]]).
  assert (Hrun := answered_windows_concatenate
                    E (PStr "Example Cert") (PStr "france")
                    (PStr "01/01/1990") (PStr "01/01/2019") (PBool false)
                    (PStr "ascending") (PStr "Daily") a
                    [{| start := "01/01/1990"; end_ := "01/01/2010" |};
                     {| start := "01/01/2010"; end_ := "01/01/2019" |}]
                    "EX1" 123 "Example Cert" series
                    ltac:(vm_compute; reflexivity)).
  unfold Scenario.historical, fetch. rewrite Hrun.
  - reflexivity.
  - cbn [windows_answered].
    split; [reflexivity|]. split; [discriminate|].
    split; [eexists; split; [reflexivity|];
            split; [discriminate | reflexivity]|].
    split; [reflexivity|]. split; [discriminate|].
    split; [eexists; split; [reflexivity|];
            split; [discriminate | reflexivity]|].
    exact I.
Defined.
